(** * ScreenPro: the recording-session controller of [screenpro.py]

    A shallow embedding of the command builders and of the three session
    operations of [RecorderGUI] ([start_recording], [toggle_pause],
    [stop_recording]) together with the Python library primitives they rest
    on ([str.replace], [str.strip], [os.path.join], [shlex.split]).

    Python strings are modelled as byte strings ([string]); a non-ASCII
    character is the sequence of its UTF-8 bytes.  [str.strip] removes the
    Unicode white space, so that [Py.strip] knows the encodings of the
    white-space characters beyond ASCII; [str.lower] is only used in a
    comparison with an ASCII word, see [Py.lower]; the bytes of a non-ASCII
    character are special to no other primitive below. *)

From Stdlib Require Import Ascii.
From stdpp Require Import gmap strings list fin_maps pretty.

(** ** Characters that cannot be written inside a literal *)

Definition dquote : ascii := "034"%char.
Definition squote : ascii := "039"%char.
Definition backslash : ascii := "092"%char.
Definition newline : ascii := "010"%char.

(** One-character strings for the two characters above that the command
    templates contain. *)
Definition DQ : string := String dquote EmptyString.
Definition NL : string := String newline EmptyString.

(** ** Python string primitives *)

Module Py.

(** [c in ' \t\r\n'], the [whitespace] attribute of a [shlex] instance. *)
Definition is_shlex_space (c : ascii) : bool :=
  Ascii.eqb c " "%char || Ascii.eqb c "009"%char || Ascii.eqb c "013"%char || Ascii.eqb c "010"%char.

Definition is_quote (c : ascii) : bool :=
  Ascii.eqb c squote || Ascii.eqb c dquote.

Definition is_escape (c : ascii) : bool := Ascii.eqb c backslash.

(** [str.isspace] restricted to one-byte characters: tab, LF, VT, FF, CR,
    the separators 0x1c-0x1f and the space. *)
Definition is_space (c : ascii) : bool :=
  let n := nat_of_ascii c in
  (Nat.leb 9 n && Nat.leb n 13) || (Nat.leb 28 n && Nat.leb n 32).

(** [str.lower] on one-byte characters.  The program lowers one string, the
    session type, to compare it with "wayland"; the only characters beyond
    ASCII whose lower case has an ASCII letter are U+212A (k) and U+0130 (i),
    so that leaving the bytes of non-ASCII characters as they are does not
    change the outcome of that comparison. *)
Definition lower_char (c : ascii) : ascii :=
  let n := nat_of_ascii c in
  if Nat.leb 65 n && Nat.leb n 90 then ascii_of_nat (n + 32) else c.

Fixpoint lower (s : string) : string :=
  match s with
  | EmptyString => EmptyString
  | String c s' => String (lower_char c) (lower s')
  end.

Definition utf8 (bytes : list nat) : string :=
  fold_right (fun n s => String (ascii_of_nat n) s) EmptyString bytes.

(** The UTF-8 encodings of the characters beyond ASCII for which
    [str.isspace] holds: U+0085, U+00A0, U+1680, U+2000 to U+200A, U+2028,
    U+2029, U+202F, U+205F and U+3000. *)
Definition wide_spaces : list string :=
  utf8 [194; 133] :: utf8 [194; 160] :: utf8 [225; 154; 128] ::
  List.map (fun n => utf8 [226; 128; n]) (List.seq 128 11) ++
  [utf8 [226; 128; 168]; utf8 [226; 128; 169]; utf8 [226; 128; 175];
   utf8 [226; 129; 159]; utf8 [227; 128; 128]].

(** The number of bytes of the white-space character [s] starts with, if it
    starts with one; [wide] lists the encodings that take several bytes. *)
Definition space_prefix (wide : list string) (s : string) : option nat :=
  match s with
  | EmptyString => None
  | String c _ =>
      if is_space c then Some 1
      else String.length <$> List.find (fun ws => String.prefix ws s) wide
  end.

(** [s] without the white-space characters it starts with; [skip] counts the
    bytes of a white-space character that are still to be dropped. *)
Fixpoint drop_spaces (wide : list string) (skip : nat) (s : string) : string :=
  match s with
  | EmptyString => EmptyString
  | String c s' =>
      match skip with
      | S k => drop_spaces wide k s'
      | O =>
          match space_prefix wide s with
          | Some n => drop_spaces wide (n - 1) s'
          | None => s
          end
      end
  end.

Definition lstrip (s : string) : string := drop_spaces wide_spaces 0 s.

(** [rstrip] is [lstrip] read from the end: in UTF-8 the last bytes of a
    string are the encoding of a white-space character exactly when that
    character is its last one. *)
Definition rstrip (s : string) : string :=
  String.rev (drop_spaces (List.map String.rev wide_spaces) 0 (String.rev s)).

(** [s.strip()] *)
Definition strip (s : string) : string := rstrip (lstrip s).

(** [s.replace(old, new)]: every non-overlapping occurrence of [old], found
    from left to right, is replaced.  [skip] counts the characters of an
    occurrence just replaced that are still to be dropped. *)
Fixpoint replace_from (old new : string) (skip : nat) (s : string) : string :=
  match s with
  | EmptyString => EmptyString
  | String c s' =>
      match skip with
      | S k => replace_from old new k s'
      | O =>
          if String.prefix old s
          then new +:+ replace_from old new (String.length old - 1) s'
          else String c (replace_from old new 0 s')
      end
  end.

(** With an empty [old] Python inserts [new] before every character and at
    the end. *)
Fixpoint intersperse (new s : string) : string :=
  match s with
  | EmptyString => new
  | String c s' => new +:+ String c (intersperse new s')
  end.

Definition replace (s old new : string) : string :=
  match old with
  | EmptyString => intersperse new s
  | _ => replace_from old new 0 s
  end.

(** [s.endswith(t)] *)
Definition endswith (s t : string) : bool :=
  String.prefix (String.rev t) (String.rev s).

(** [os.path.join(a, b)] (posixpath) for two components. *)
Definition path_join (a b : string) : string :=
  if String.prefix "/" b then b
  else if String.eqb a EmptyString || endswith a "/" then a +:+ b
  else a +:+ "/" +:+ b.

(** *** [shlex.split(s)] in its default POSIX mode

    [shlex.split] runs a [shlex] lexer with [whitespace_split = True] and no
    comment characters and collects its tokens.  The lexer is the state
    machine of [shlex.read_token]; its states are [' '] (between tokens),
    ['a'] (inside a token), a quote character (inside a quoted part) and
    the escape character (just after a backslash, with [escapedstate]
    telling where to return). *)

Inductive lex_state : Type :=
| LBetween                     (* state ' ' *)
| LWord                        (* state 'a' *)
| LQuote (q : ascii)           (* state in quotes *)
| LEscape (escapedstate : option ascii).
    (* state in escape; [None] is escapedstate 'a', [Some q] a quote *)

(** [lex st tok s]: the tokens read from [s] when the lexer is in state [st]
    with [tok] accumulated; [None] is the [ValueError] of an unclosed quote
    or a trailing backslash. *)
Fixpoint lex (st : lex_state) (tok : string) (s : string) : option (list string) :=
  match s with
  | EmptyString =>
      match st with
      | LBetween => Some []
      | LWord => Some [tok]
      | LQuote _ => None          (* No closing quotation *)
      | LEscape _ => None         (* No escaped character *)
      end
  | String c rest =>
      match st with
      | LBetween =>
          if is_shlex_space c then lex LBetween EmptyString rest
          else if is_escape c then lex (LEscape None) EmptyString rest
          else if is_quote c then lex (LQuote c) EmptyString rest
          else lex LWord (String c EmptyString) rest
      | LWord =>
          if is_shlex_space c then cons tok <$> lex LBetween EmptyString rest
          else if is_quote c then lex (LQuote c) tok rest
          else if is_escape c then lex (LEscape None) tok rest
          else lex LWord (tok +:+ String c EmptyString) rest
      | LQuote q =>
          if Ascii.eqb c q then lex LWord tok rest
          else if is_escape c && Ascii.eqb q dquote
               then lex (LEscape (Some q)) tok rest
          else lex (LQuote q) (tok +:+ String c EmptyString) rest
      | LEscape None =>
          lex LWord (tok +:+ String c EmptyString) rest
      | LEscape (Some q) =>
          if negb (Ascii.eqb c backslash) && negb (Ascii.eqb c q)
          then lex (LQuote q) (tok +:+ String backslash (String c EmptyString)) rest
          else lex (LQuote q) (tok +:+ String c EmptyString) rest
      end
  end.

Definition shlex_split (s : string) : option (list string) :=
  lex LBetween EmptyString s.

End Py.

(** ** Build commands *)

(** [build_cmd_x11(out_path, fps, size_str, display, audio, webcam)] *)
Definition build_cmd_x11 (out_path fps size_str display audio webcam : string) : string :=
  let webcam_w := "300" in
  let webcam_h := "300" in
  let x_pos := "(main_w-overlay_w-20)" in
  let y_pos := "20" in
  "ffmpeg -y " +:+
  "-video_size " +:+ size_str +:+ " -framerate " +:+ fps +:+ " -f x11grab -i " +:+ display +:+ " " +:+
  "-f v4l2 -video_size " +:+ webcam_w +:+ "x" +:+ webcam_h +:+ " -i " +:+ webcam +:+ " " +:+
  "-f pulse -thread_queue_size 512 -ac 2 -i " +:+ audio +:+ " " +:+
  "-filter_complex " +:+ DQ +:+ "[0:v][1:v] overlay=" +:+ x_pos +:+ ":" +:+ y_pos +:+ "[v]" +:+ DQ +:+ " " +:+
  "-map " +:+ DQ +:+ "[v]" +:+ DQ +:+ " -map 2:a " +:+
  "-c:v libx264 -preset veryfast -pix_fmt yuv420p -crf 23 " +:+
  "-c:a aac -b:a 160k " +:+
  DQ +:+ out_path +:+ DQ.

(** The defaults of the keyword parameters. *)
Definition default_display : string := ":0.0".
Definition default_audio : string := "default".
Definition default_webcam : string := "/dev/video0".

(** [build_cmd_wayland(out_path, fps, size_str, audio)]: [size_str] is
    accepted and not used. *)
Definition build_cmd_wayland (out_path fps size_str audio : string) : string :=
  "wf-recorder -f " +:+ DQ +:+ out_path +:+ DQ +:+ " " +:+
  "--audio=" +:+ audio +:+ " --framerate " +:+ fps +:+ " --pixel-format yuv420p".

(** The three strings [stop_recording] builds. *)
Definition splash_file : string := "splash.mp4".
Definition concat_list : string := "concat_list.txt".

Definition cmd_splash (size_str title_text : string) : string :=
  "ffmpeg -y -f lavfi -i color=c=black:s=" +:+ size_str +:+ ":d=5 " +:+
  "-f lavfi -i anullsrc=r=44100:cl=stereo " +:+
  "-vf " +:+ DQ +:+ "drawtext=text='" +:+ title_text +:+
    "':fontcolor=white:fontsize=48:x=(w-text_w)/2:y=(h-text_h)/2" +:+ DQ +:+ " " +:+
  "-c:v libx264 -c:a aac -shortest " +:+ DQ +:+ splash_file +:+ DQ.

Definition cmd_concat (final_file : string) : string :=
  "ffmpeg -y -f concat -safe 0 -i concat_list.txt -c copy " +:+ DQ +:+ final_file +:+ DQ.

Definition concat_manifest (output_file : string) : string :=
  "file '" +:+ splash_file +:+ "'" +:+ NL +:+
  "file '" +:+ output_file +:+ "'" +:+ NL.

Definition final_path (output_file : string) : string :=
  Py.replace output_file ".mp4" "_final.mp4".


(** ** Exceptions and the outside world *)

Inductive signal : Type := SIGSTOP | SIGCONT | SIGINT | SIGKILL.

(** The exceptions the operations can meet; each carries the text [str(e)]
    where the code prints or logs it. *)
Inductive exn : Type :=
| TimeoutExpired                       (* subprocess.TimeoutExpired *)
| CalledProcessError (msg : string)    (* subprocess.run(check=True), non-zero exit *)
| OSError (msg : string)               (* FileNotFoundError, PermissionError, BrokenPipeError, ... *)
| ValueError (msg : string)            (* shlex.split *)
| AttributeError (msg : string).       (* a method called on None *)

Definition str_of_exn (e : exn) : string :=
  match e with
  | TimeoutExpired => "Command timed out"
  | CalledProcessError m | OSError m | ValueError m | AttributeError m => m
  end.

Definition is_TimeoutExpired (e : exn) : bool :=
  match e with TimeoutExpired => true | _ => false end.

Inductive result (A : Type) : Type :=
| Ok (a : A)
| Raise (e : exn).
Arguments Ok {A} a.
Arguments Raise {A} e.

(** The handle returned by [subprocess.Popen]: the argument list it was
    started with and whether it has a [stdin] pipe. *)
Record Popen : Type := { p_args : list string; p_stdin : bool }.

Inductive dialog_kind : Type := ShowWarning | ShowError | AskYesNo.

(** What an operation does to the outside, in order. *)
Inductive event : Type :=
| EDialog (k : dialog_kind) (title message : string)   (* messagebox *)
| EPrint (line : string)
| EMakedirs (path : string)
| ESpawn (args : list string)                          (* Popen returned *)
| ESignal (s : signal) (delivered : bool)              (* send_signal / kill *)
| EStdin (text : string) (written : bool)              (* stdin.write + flush *)
| EWait (timeout : option nat) (exited : bool)         (* proc.wait *)
| ERun (args : list string) (ok : bool)                (* subprocess.run *)
| EWrite (path content : string)                       (* open(path, "w") + writes *)
| ERemove (path : string) (ok : bool)                  (* os.remove *)
| EDestroy.                                            (* root.destroy *)

(** The answers of the outside world during one operation. *)
Record env : Type := {
  xdg_session_type : option string;       (* os.environ["XDG_SESSION_TYPE"] *)
  env_display : option string;            (* os.environ["DISPLAY"] *)
  shutil_which : string -> bool;          (* shutil.which(cmd) is not None *)
  now : string;                           (* datetime.now() as %Y-%m-%d_%H-%M-%S *)
  askstring : option string;              (* simpledialog.askstring; None on cancel *)
  askdirectory : string;                  (* filedialog.askdirectory; empty on cancel *)
  askyesno : bool;                        (* messagebox.askyesno *)
  makedirs_exn : string -> option exn;    (* os.makedirs(path, exist_ok=True) *)
  popen_exn : list string -> option exn;  (* subprocess.Popen *)
  signal_exn : signal -> option exn;      (* Popen.send_signal, Popen.kill *)
  stdin_exn : option exn;                 (* proc.stdin.write / flush *)
  exits_within : nat -> bool;             (* does proc.wait(timeout=t) return? *)
  run_tool : list string -> gmap string string -> result (gmap string string);
                                          (* subprocess.run(args, check=True) *)
  open_exn : string -> option exn;        (* open(path, "w") *)
  remove_exn : string -> option exn;      (* os.remove on an existing file *)
  log_exn : string -> option exn          (* log_event(message): os.makedirs,
                                             open(log_file, "a"), f.write *)
}.

(** ** The recorder object *)

Inductive btn_state : Type := Normal | Disabled.

(** The fields of a [RecorderGUI] instance; the three [StringVar]s and the
    widgets are represented by the values they hold. *)
Record RecorderGUI : Type := {
  proc : option Popen;
  output_file : option string;
  title_text : option string;
  paused : bool;
  size_str : string;
  output_dir : string;
  fps : string;
  status : string;
  btn_start : btn_state;
  btn_stop : btn_state;
  btn_pause : btn_state;
  btn_pause_text : string
}.

(** The recorder together with what it acts on: the regular files (path to
    content), the log file [record.log], which is kept apart from them as
    the list of the messages [log_event] has appended to it, and the trace of
    the other interactions. *)
Record world : Type := {
  gui : RecorderGUI;
  files : gmap string string;
  log : list string;
  events : list event
}.

Definition with_gui (f : RecorderGUI -> RecorderGUI) (w : world) : world :=
  {| gui := f (gui w); files := files w; log := log w; events := events w |}.

Definition set_proc (v : option Popen) (g : RecorderGUI) : RecorderGUI :=
  {| proc := v; output_file := output_file g; title_text := title_text g;
     paused := paused g; size_str := size_str g; output_dir := output_dir g;
     fps := fps g; status := status g; btn_start := btn_start g;
     btn_stop := btn_stop g; btn_pause := btn_pause g;
     btn_pause_text := btn_pause_text g |}.

Definition set_output_file (v : option string) (g : RecorderGUI) : RecorderGUI :=
  {| proc := proc g; output_file := v; title_text := title_text g;
     paused := paused g; size_str := size_str g; output_dir := output_dir g;
     fps := fps g; status := status g; btn_start := btn_start g;
     btn_stop := btn_stop g; btn_pause := btn_pause g;
     btn_pause_text := btn_pause_text g |}.

Definition set_title_text (v : option string) (g : RecorderGUI) : RecorderGUI :=
  {| proc := proc g; output_file := output_file g; title_text := v;
     paused := paused g; size_str := size_str g; output_dir := output_dir g;
     fps := fps g; status := status g; btn_start := btn_start g;
     btn_stop := btn_stop g; btn_pause := btn_pause g;
     btn_pause_text := btn_pause_text g |}.

Definition set_paused (v : bool) (g : RecorderGUI) : RecorderGUI :=
  {| proc := proc g; output_file := output_file g; title_text := title_text g;
     paused := v; size_str := size_str g; output_dir := output_dir g;
     fps := fps g; status := status g; btn_start := btn_start g;
     btn_stop := btn_stop g; btn_pause := btn_pause g;
     btn_pause_text := btn_pause_text g |}.

Definition set_entries (dir f sz : string) (g : RecorderGUI) : RecorderGUI :=
  {| proc := proc g; output_file := output_file g; title_text := title_text g;
     paused := paused g; size_str := sz; output_dir := dir;
     fps := f; status := status g; btn_start := btn_start g;
     btn_stop := btn_stop g; btn_pause := btn_pause g;
     btn_pause_text := btn_pause_text g |}.

Definition set_status (v : string) (g : RecorderGUI) : RecorderGUI :=
  {| proc := proc g; output_file := output_file g; title_text := title_text g;
     paused := paused g; size_str := size_str g; output_dir := output_dir g;
     fps := fps g; status := v; btn_start := btn_start g;
     btn_stop := btn_stop g; btn_pause := btn_pause g;
     btn_pause_text := btn_pause_text g |}.

(** [btn_start.config(state=a); btn_stop.config(state=b); btn_pause.config(state=c)] *)
Definition set_buttons (a b c : btn_state) (g : RecorderGUI) : RecorderGUI :=
  {| proc := proc g; output_file := output_file g; title_text := title_text g;
     paused := paused g; size_str := size_str g; output_dir := output_dir g;
     fps := fps g; status := status g; btn_start := a;
     btn_stop := b; btn_pause := c;
     btn_pause_text := btn_pause_text g |}.

Definition set_btn_pause_text (v : string) (g : RecorderGUI) : RecorderGUI :=
  {| proc := proc g; output_file := output_file g; title_text := title_text g;
     paused := paused g; size_str := size_str g; output_dir := output_dir g;
     fps := fps g; status := status g; btn_start := btn_start g;
     btn_stop := btn_stop g; btn_pause := btn_pause g;
     btn_pause_text := v |}.

(** ** Computations that change the world and may raise *)

Definition M (A : Type) : Type := world -> world * result A.

Definition ret {A} (a : A) : M A := fun w => (w, Ok a).

Definition raise {A} (e : exn) : M A := fun w => (w, Raise e).

Definition bind {A B} (m : M A) (k : A -> M B) : M B :=
  fun w => match m w with
           | (w', Ok a) => k a w'
           | (w', Raise e) => (w', Raise e)
           end.

Notation "'let*' x ':=' c1 'in' c2" := (bind c1 (fun x => c2))
  (at level 10, x pattern, c1 at level 100, c2 at level 200).
Notation "c1 ;; c2" := (bind c1 (fun _ => c2))
  (at level 100, c2 at level 200, right associativity).

(** [try: m  except C as e: h e], where [catches] tells the classes [C]. *)
Definition try_except {A} (m : M A) (catches : exn -> bool) (h : exn -> M A) : M A :=
  fun w => match m w with
           | (w', Ok a) => (w', Ok a)
           | (w', Raise e) => if catches e then h e w' else (w', Raise e)
           end.

(** [except Exception] *)
Definition Exception (e : exn) : bool := true.

(** [try: m  finally: f]: [f] runs whatever [m] did; what [m] returned or
    raised stands unless [f] raises itself. *)
Definition try_finally {A} (m : M A) (f : M unit) : M A :=
  fun w => match m w with
           | (w', r) => match f w' with
                        | (w'', Ok _) => (w'', r)
                        | (w'', Raise e) => (w'', Raise e)
                        end
           end.

Definition get_gui : M RecorderGUI := fun w => (w, Ok (gui w)).

Definition update (f : RecorderGUI -> RecorderGUI) : M unit :=
  fun w => (with_gui f w, Ok tt).

Definition emit (e : event) : M unit :=
  fun w => ({| gui := gui w; files := files w; log := log w;
               events := events w ++ [e] |}, Ok tt).

(** ** Helpers *)

Definition is_wayland (E : env) : bool :=
  String.eqb (Py.lower (default EmptyString (xdg_session_type E))) "wayland".

Definition which (E : env) (cmd : string) : bool := shutil_which E cmd.

(** [log_event(message)]: the log directory is made if it is missing, the
    log file is opened for appending and one line is written; the line's time
    stamp is left out.  When one of the three calls raises, [log_event]
    raises and the log has no new line. *)
Definition log_event (E : env) (message : string) : M unit :=
  match log_exn E message with
  | Some e => raise e
  | None =>
      fun w => ({| gui := gui w; files := files w; log := log w ++ [message];
                   events := events w |}, Ok tt)
  end.

Definition print (line : string) : M unit := emit (EPrint line).

Definition messagebox (k : dialog_kind) (title message : string) : M unit :=
  emit (EDialog k title message).

(** [str(x)] of a value that is [None] or a string, as an f-string renders it. *)
Definition fstr (x : option string) : string := default "None" x.

(** [if not x] for such a value. *)
Definition falsy (x : option string) : bool :=
  match x with
  | None => true
  | Some s => String.eqb s EmptyString
  end.

(** [shlex.split(s)]; its two [ValueError]s (an unclosed quotation, a
    trailing backslash) are not told apart. *)
Definition shlex_split (s : string) : M (list string) :=
  match Py.shlex_split s with
  | Some args => ret args
  | None => raise (ValueError "No closing quotation")
  end.

Definition os_makedirs (E : env) (path : string) : M unit :=
  match makedirs_exn E path with
  | Some e => raise e
  | None => emit (EMakedirs path)
  end.

Definition subprocess_Popen (E : env) (args : list string) : M Popen :=
  match popen_exn E args with
  | Some e => raise e
  | None => emit (ESpawn args) ;; ret {| p_args := args; p_stdin := true |}
  end.

Definition send_signal (E : env) (s : signal) : M unit :=
  match signal_exn E s with
  | Some e => emit (ESignal s false) ;; raise e
  | None => emit (ESignal s true)
  end.

(** [proc.kill()] is [send_signal(SIGKILL)]. *)
Definition kill (E : env) : M unit := send_signal E SIGKILL.

Definition stdin_write (E : env) (text : string) : M unit :=
  match stdin_exn E with
  | Some e => emit (EStdin text false) ;; raise e
  | None => emit (EStdin text true)
  end.

(** [proc.wait(timeout)]: with a bound it returns when the child exits within
    it and raises [TimeoutExpired] otherwise; without one it returns when the
    child has exited. *)
Definition proc_wait (E : env) (timeout : option nat) : M unit :=
  match timeout with
  | Some t =>
      if exits_within E t then emit (EWait timeout true)
      else emit (EWait timeout false) ;; raise TimeoutExpired
  | None => emit (EWait None true)
  end.

Definition set_files (fs : gmap string string) : M unit :=
  fun w => ({| gui := gui w; files := fs; log := log w; events := events w |}, Ok tt).

(** [subprocess.run(args, check=True, ...)] *)
Definition subprocess_run (E : env) (args : list string) : M unit :=
  fun w => match run_tool E args (files w) with
           | Ok fs => (emit (ERun args true) ;; set_files fs) w
           | Raise e => (emit (ERun args false) ;; raise e) w
           end.

(** [with open(path, "w") as f: f.write(...)] *)
Definition write_file (E : env) (path content : string) : M unit :=
  match open_exn E path with
  | Some e => raise e
  | None => fun w => (emit (EWrite path content) ;; set_files (<[path := content]> (files w))) w
  end.

Definition os_remove (E : env) (path : string) : M unit :=
  fun w => match files w !! path with
           | None => (emit (ERemove path false) ;;
                      raise (OSError ("No such file or directory: " +:+ path))) w
           | Some _ =>
               match remove_exn E path with
               | Some e => (emit (ERemove path false) ;; raise e) w
               | None => (emit (ERemove path true) ;; set_files (delete path (files w))) w
               end
           end.

Definition os_path_exists (path : string) : M bool :=
  fun w => (w, Ok (bool_decide (is_Some (files w !! path)))).

(** ** The operations of [RecorderGUI] *)

Definition status_recording : string := "Recording… (Ctrl+Q to stop)".

Definition browse_dir (E : env) : M unit :=
  let d := askdirectory E in
  if String.eqb d EmptyString then ret tt
  else update (fun g => set_entries d (fps g) (size_str g) g).

(** Lines 143-167: the [try] block that launches the child for the command
    line [cmd].  ([root.update()], which redraws the window, is left out.) *)
Definition launch (E : env) (out cmd : string) : M unit :=
  try_except
    (update (set_status status_recording) ;;
     update (set_buttons Disabled Normal Normal) ;;
     let* args := shlex_split cmd in
     let* p := subprocess_Popen E args in
     update (set_proc (Some p)) ;;
     update (set_paused false) ;;
     log_event E ("Started recording: " +:+ out))
    Exception
    (fun e =>
       update (set_proc None) ;;
       update (set_buttons Normal Disabled Disabled) ;;
       messagebox ShowError "Error starting recorder" (str_of_exn e) ;;
       log_event E ("Failed to start recording: " +:+ str_of_exn e)).

(** Lines 127-141: the choice of the backend and of its command line. *)
Definition select_backend (E : env) (out fps size_str : string) : M unit :=
  if is_wayland E then
    if negb (which E "wf-recorder") then
      messagebox ShowError "wf-recorder not found"
        ("You are on Wayland and 'wf-recorder' is not installed." +:+ NL +:+ NL +:+
         "Install it: sudo apt install wf-recorder") ;;
      log_event E "Failed: wf-recorder not found"
    else launch E out (build_cmd_wayland out fps size_str default_audio)
  else
    if negb (which E "ffmpeg") then
      messagebox ShowError "FFmpeg not found"
        ("FFmpeg is required on X11." +:+ NL +:+ NL +:+
         "Install it: sudo apt install ffmpeg") ;;
      log_event E "Failed: FFmpeg not found"
    else
      let display := default ":0.0" (env_display E) in
      launch E out (build_cmd_x11 out fps size_str display default_audio default_webcam).

Definition start_recording (E : env) : M unit :=
  let* g := get_gui in
  match proc g with
  | Some _ =>
      messagebox ShowWarning "Already running" "Recording is already in progress."
  | None =>
      update (set_title_text (askstring E)) ;;
      if falsy (askstring E) then
        messagebox ShowError "Missing" "Please enter a video title."
      else
        let ts := now E in
        let filename := "recording_" +:+ ts +:+ ".mp4" in
        let out_dir := Py.strip (output_dir g) in
        let fps := Py.strip (fps g) in
        let size_str := Py.strip (size_str g) in
        os_makedirs E out_dir ;;
        let out := Py.path_join out_dir filename in
        update (set_output_file (Some out)) ;;
        select_backend E out fps size_str
  end.

Definition toggle_pause (E : env) : M unit :=
  let* g := get_gui in
  match proc g with
  | None => ret tt
  | Some _ =>
      if negb (paused g) then
        try_except
          (send_signal E SIGSTOP ;;
           update (set_status "Paused") ;;
           update (set_btn_pause_text "Resume") ;;
           log_event E "Recording paused" ;;
           update (set_paused true))
          Exception
          (fun e =>
             messagebox ShowError "Pause Error" (str_of_exn e) ;;
             log_event E ("Failed to pause recording: " +:+ str_of_exn e))
      else
        try_except
          (send_signal E SIGCONT ;;
           update (set_status status_recording) ;;
           update (set_btn_pause_text "Pause") ;;
           log_event E "Recording resumed" ;;
           update (set_paused false))
          Exception
          (fun e =>
             messagebox ShowError "Resume Error" (str_of_exn e) ;;
             log_event E ("Failed to resume recording: " +:+ str_of_exn e))
  end.

(** The three parts of the [try] block of [stop_recording]. *)

(** Lines 203-211: the request to stop. *)
Definition graceful_stop (E : env) (p : Popen) : M unit :=
  if is_wayland E then send_signal E SIGINT
  else if p_stdin p then
    try_except (stdin_write E ("q" +:+ NL)) Exception (fun _ => send_signal E SIGINT)
  else ret tt.

(** Lines 213-217: the bounded wait and the kill. *)
Definition wait_child (E : env) : M unit :=
  try_except (proc_wait E (Some 20)) is_TimeoutExpired
    (fun _ => kill E ;; proc_wait E None).

(** Lines 222-236: the splash clip, the concat manifest and the concat run
    that makes [final_file]. *)
Definition make_final (E : env) (g : RecorderGUI) (out final_file : string) : M unit :=
  let* args := shlex_split (cmd_splash (size_str g) (fstr (title_text g))) in
  subprocess_run E args ;;
  write_file E concat_list (concat_manifest out) ;;
  let* args := shlex_split (cmd_concat final_file) in
  subprocess_run E args.

(** Lines 238-241: the removals and the new output path. *)
Definition cleanup (E : env) (out final_file : string) : M unit :=
  os_remove E splash_file ;;
  os_remove E concat_list ;;
  os_remove E out ;;
  update (set_output_file (Some final_file)).

(** Lines 243-250: the report. *)
Definition report (E : env) (final_file : string) : M unit :=
  let* saved := os_path_exists final_file in
  if saved then
    update (set_status ("Saved: " +:+ final_file)) ;;
    print ("✅ Recording saved: " +:+ final_file) ;;
    log_event E ("Success: Recording saved: " +:+ final_file)
  else
    update (set_status "Error: file not saved") ;;
    print "❌ Error: final video not created" ;;
    log_event E "Failed: final video not created".

(** Lines 219-250: the postprocessing sequence. *)
Definition postprocess (E : env) : M unit :=
  let* g := get_gui in
  let* out :=
    match output_file g with
    | Some o => ret o
    | None => raise (AttributeError "'NoneType' object has no attribute 'replace'")
    end in
  let final_file := final_path out in
  make_final E g out final_file ;;
  cleanup E out final_file ;;
  report E final_file.

Definition stop_body (E : env) (p : Popen) : M unit :=
  graceful_stop E p ;; wait_child E ;; postprocess E.

Definition stop_handler (E : env) (e : exn) : M unit :=
  print ("❌ Stop error: " +:+ str_of_exn e) ;;
  log_event E ("Failed during stop: " +:+ str_of_exn e).

Definition stop_finally : M unit :=
  update (set_proc None) ;;
  update (set_paused false) ;;
  update (set_buttons Normal Disabled Disabled) ;;
  update (set_btn_pause_text "Pause").

(** Lines 197-200, before the [try]. *)
Definition stop_begin : M unit :=
  update (set_buttons Normal Disabled Disabled) ;;
  update (set_status "Stopping...").

Definition stop_recording (E : env) : M unit :=
  let* g := get_gui in
  match proc g with
  | None => ret tt
  | Some p =>
      stop_begin ;;
      try_finally
        (try_except (stop_body E p) Exception (stop_handler E))
        stop_finally
  end.

Definition on_quit (E : env) : M unit :=
  let* g := get_gui in
  match proc g with
  | Some _ =>
      messagebox AskYesNo "Quit" "Recording is running. Stop and quit?" ;;
      if askyesno E then stop_recording E ;; emit EDestroy else ret tt
  | None => emit EDestroy
  end.

(** [RecorderGUI.__init__]: the screen is [screen_w] by [screen_h] and
    [home] is the user's home directory. *)
Definition init_gui (screen_w screen_h : nat) (home : string) : RecorderGUI :=
  {| proc := None;
     output_file := None;
     title_text := Some EmptyString;
     paused := false;
     size_str := pretty screen_w +:+ "x" +:+ pretty screen_h;
     output_dir := home +:+ "/Videos/Record";
     fps := "30";
     status := "Ready";
     btn_start := Normal;
     btn_stop := Disabled;
     btn_pause := Disabled;
     btn_pause_text := "Pause" |}.

Definition init_world (screen_w screen_h : nat) (home : string)
    (fs : gmap string string) (lg : list string) : world :=
  {| gui := init_gui screen_w screen_h home; files := fs; log := lg; events := [] |}.

(** What the user can do to the window: the three buttons and their key
    bindings, Quit, Browse, and typing into the three entries. *)
Inductive op : Type :=
| Start | TogglePause | Stop | Quit | Browse
| Edit (dir fps size : string).

Definition run_op (E : env) (o : op) : M unit :=
  match o with
  | Start => start_recording E
  | TogglePause => toggle_pause E
  | Stop => stop_recording E
  | Quit => on_quit E
  | Browse => browse_dir E
  | Edit d f s => update (set_entries d f s)
  end.

(** The worlds the program can be in: an exception that leaves a callback is
    reported by the toolkit and the window stays, so that the next operation
    starts from the world the callback was left in. *)
Inductive reachable : world -> Prop :=
| reach_init screen_w screen_h home fs lg :
    reachable (init_world screen_w screen_h home fs lg)
| reach_step E o w :
    reachable w -> reachable (run_op E o w).1
| reach_outside fs w :
    (* the child and other programs write files between two operations *)
    reachable w -> reachable (set_files fs w).1.

(** A co-operative outside world, used to build concrete runs: X11, every
    tool found, every call succeeding, the child exiting at once, and an
    external tool that writes its last argument. *)
Definition tool_writes_output (args : list string) (fs : gmap string string)
  : result (gmap string string) :=
  Ok (<[List.last args EmptyString := "media"]> fs).

Definition fair_env : env :=
  {| xdg_session_type := Some "x11";
     env_display := Some ":0";
     shutil_which := fun _ => true;
     now := "2024-01-01_00-00-00";
     askstring := Some "Demo";
     askdirectory := EmptyString;
     askyesno := true;
     makedirs_exn := fun _ => None;
     popen_exn := fun _ => None;
     signal_exn := fun _ => None;
     stdin_exn := None;
     exits_within := fun _ => true;
     run_tool := tool_writes_output;
     open_exn := fun _ => None;
     remove_exn := fun _ => None;
     log_exn := fun _ => None |}.


(** ** Vocabulary of the statements *)

Fixpoint all_chars (P : ascii -> bool) (s : string) : bool :=
  match s with
  | EmptyString => true
  | String c s' => P c && all_chars P s'
  end.

(** A character that [shlex] copies into the current token outside quotes. *)
Definition word_char (c : ascii) : bool :=
  negb (Py.is_shlex_space c) && negb (Py.is_quote c) && negb (Py.is_escape c).

(** A character that [shlex] copies into the current token between double
    quotes. *)
Definition dq_char (c : ascii) : bool :=
  negb (Ascii.eqb c dquote) && negb (Ascii.eqb c backslash).

(** A non-empty string without blanks, quotes and backslashes: what an fps
    value ("30"), a frame size ("1920x1080"), a display or a device name is. *)
Definition bare_word (s : string) : Prop :=
  s <> EmptyString /\ all_chars word_char s = true.

(** A string without double quotes and backslashes. *)
Definition dq_safe (s : string) : Prop := all_chars dq_char s = true.


(** The recorder's fields agree with each other: without a child nothing is
    paused and the pause button reads Pause; with a child the output path is
    set, and status line and pause button tell whether it is suspended. *)
Definition ui_consistent (g : RecorderGUI) : Prop :=
  match proc g with
  | None => paused g = false /\ btn_pause_text g = "Pause"
  | Some _ =>
      output_file g <> None /\
      if paused g
      then status g = "Paused" /\ btn_pause_text g = "Resume"
      else status g = status_recording /\ btn_pause_text g = "Pause"
  end.

(** The part of it that stands whatever fails: without a child nothing is
    paused and the pause button reads Pause; with a child the output path is
    set and status line and pause button agree with each other.  (They need
    not agree with the pause flag, which is set after the log write.) *)
Definition display_consistent (g : RecorderGUI) : Prop :=
  match proc g with
  | None => paused g = false /\ btn_pause_text g = "Pause"
  | Some _ =>
      output_file g <> None /\
      ((status g = "Paused" /\ btn_pause_text g = "Resume") \/
       (status g = status_recording /\ btn_pause_text g = "Pause"))
  end.

(** What [toggle_pause] shows before it writes its log line: the status line
    and the pause button of the state opposite to the pause flag. *)
Definition shown_toggled (g : RecorderGUI) : RecorderGUI :=
  if paused g
  then set_btn_pause_text "Pause" (set_status status_recording g)
  else set_btn_pause_text "Resume" (set_status "Paused" g).

(** A [wait] that returned: the child's exit status has been collected. *)
Definition is_reap (e : event) : bool :=
  match e with
  | EWait _ true => true
  | _ => false
  end.

(** The steps of the postprocessing sequence. *)
Definition is_postprocessing (e : event) : bool :=
  match e with
  | ERun _ _ | EWrite _ _ | ERemove _ _ => true
  | _ => false
  end.

(** No postprocessing step of [tr] comes before the exit status has been
    collected; [reaped] tells whether it had been before [tr]. *)
Fixpoint post_after_reap (reaped : bool) (tr : list event) : bool :=
  match tr with
  | [] => true
  | e :: tr' =>
      if is_postprocessing e then reaped && post_after_reap reaped tr'
      else post_after_reap (reaped || is_reap e) tr'
  end.

(** The events an operation added to the trace of [w]. *)
Definition new_events (w w' : world) : list event :=
  drop (length (events w)) (events w').

(** The world [w] after the events [evs]. *)
Definition add_events (evs : list event) (w : world) : world :=
  {| gui := gui w; files := files w; log := log w; events := events w ++ evs |}.

(** The world [w] after the line [m] was written to the log. *)
Definition add_log (m : string) (w : world) : world :=
  {| gui := gui w; files := files w; log := log w ++ [m]; events := events w |}.

(** How a call of [log_event] ends. *)
Definition log_result (E : env) (m : string) : result unit :=
  match log_exn E m with
  | None => Ok tt
  | Some e => Raise e
  end.

(** Every log write of the operation succeeds. *)
Definition log_writable (E : env) : Prop := forall m, log_exn E m = None.

(** What the [except] blocks of [toggle_pause] and of the launch do after
    their own updates: the error dialog and the log line. *)
Definition report_error (E : env) (title line : string) (e : exn) : M unit :=
  messagebox ShowError title (str_of_exn e) ;;
  log_event E (line +:+ str_of_exn e).

(** What [wait_child] does, as the trace shows it, and how it ends. *)
Definition wait_events (E : env) : list event :=
  if exits_within E 20 then [EWait (Some 20) true]
  else match signal_exn E SIGKILL with
       | None => [EWait (Some 20) false; ESignal SIGKILL true; EWait None true]
       | Some _ => [EWait (Some 20) false; ESignal SIGKILL false]
       end.

Definition wait_result (E : env) : result unit :=
  if exits_within E 20 then Ok tt
  else match signal_exn E SIGKILL with
       | None => Ok tt
       | Some e => Raise e
       end.

(** A property of the world that a computation keeps. *)
Definition preserves {A} (I : world -> Prop) (m : M A) : Prop :=
  forall w, I w -> I (m w).1.

(** What [graceful_stop] does, as the trace shows it, and how it ends: on
    Wayland the interrupt signal, elsewhere the quit command on the child's
    input and the interrupt signal when that cannot be written. *)
Definition request_events (E : env) (p : Popen) : list event :=
  let sigint := [ESignal SIGINT (bool_decide (signal_exn E SIGINT = None))] in
  if is_wayland E then sigint
  else if p_stdin p then
    match stdin_exn E with
    | None => [EStdin ("q" +:+ NL) true]
    | Some _ => EStdin ("q" +:+ NL) false :: sigint
    end
  else [].

Definition request_result (E : env) (p : Popen) : result unit :=
  let sigint := match signal_exn E SIGINT with None => Ok tt | Some e => Raise e end in
  if is_wayland E then sigint
  else if p_stdin p then
    match stdin_exn E with
    | None => Ok tt
    | Some _ => sigint
    end
  else Ok tt.

(** The events of a request to stop. *)
Definition is_request (e : event) : bool :=
  match e with
  | ESignal SIGINT _ | EStdin _ _ => true
  | _ => false
  end.

(** The events of the bounded wait and the kill. *)
Definition is_wait_or_kill (e : event) : bool :=
  match e with
  | EWait _ _ | ESignal SIGKILL _ => true
  | _ => false
  end.

(** A property of the world that stands when events are added to the trace,
    a line to the log, or the files change. *)
Record outside_stable (I : world -> Prop) : Prop := {
  keeps_events : forall w evs, I w -> I (add_events evs w);
  keeps_log : forall w m, I w -> I (add_log m w);
  keeps_files : forall w fs, I w -> I (set_files fs w).1
}.

(** The trace of [w] continues [evs0]. *)
Definition extends (evs0 : list event) (w : world) : Prop :=
  exists evs, events w = evs0 ++ evs.

(** The output path is set. *)
Definition has_output_file (w : world) : Prop := output_file (gui w) <> None.

Definition is_spawn (e : event) : bool :=
  match e with
  | ESpawn _ => true
  | _ => false
  end.

(** [old] does not occur in [stem +:+ suffix] at a position inside [stem]. *)
Fixpoint no_occurrence_inside (old stem suffix : string) : bool :=
  match stem with
  | EmptyString => true
  | String c stem' =>
      negb (String.prefix old (stem +:+ suffix)) &&
      no_occurrence_inside old stem' suffix
  end.

(** The raw path with [_final] put before its [.mp4] extension, as the
    specification words the final output path. *)
Definition suffixed_before_extension (raw : string) : string :=
  if Py.endswith raw ".mp4"
  then String.substring 0 (String.length raw - 4) raw +:+ "_final" +:+ ".mp4"
  else raw.

(** *** Concrete runs *)

Definition demo_init : world := init_world 1920 1080 "/home/u" ∅ [].

Definition demo_raw : string :=
  "/home/u/Videos/Record/recording_2024-01-01_00-00-00.mp4".

(** After a successful start, once the child has written its recording. *)
Definition demo_running : world :=
  (set_files {[ demo_raw := "raw" ]} (start_recording fair_env demo_init).1).1.

(** The handle of its child. *)
Definition demo_proc : Popen :=
  {| p_args :=
       ["ffmpeg"; "-y"; "-video_size"; "1920x1080"; "-framerate"; "30";
        "-f"; "x11grab"; "-i"; ":0";
        "-f"; "v4l2"; "-video_size"; "300x300"; "-i"; "/dev/video0";
        "-f"; "pulse"; "-thread_queue_size"; "512"; "-ac"; "2"; "-i"; "default";
        "-filter_complex"; "[0:v][1:v] overlay=(main_w-overlay_w-20):20[v]";
        "-map"; "[v]"; "-map"; "2:a";
        "-c:v"; "libx264"; "-preset"; "veryfast"; "-pix_fmt"; "yuv420p";
        "-crf"; "23"; "-c:a"; "aac"; "-b:a"; "160k"; demo_raw];
     p_stdin := true |}.

(** The same with an output directory whose name contains [.mp4]. *)
Definition odd_raw : string := "/tmp/a.mp4.d/recording_2024-01-01_00-00-00.mp4".

Definition odd_running : world :=
  (set_files {[ odd_raw := "raw" ]}
     (start_recording fair_env
        (update (set_entries "/tmp/a.mp4.d" "30" "1920x1080") demo_init).1).1).1.

(** The title of the specification's example and a title with one double
    quote. *)
Definition title_obrien : string :=
  "O'Brien: " +:+ DQ +:+ "Demo" +:+ DQ.
Definition title_one_dquote : string := "a" +:+ DQ +:+ "b".

(** Outside worlds that differ from [fair_env] in one answer. *)
Definition with_session (E : env) (x : option string) : env :=
  {| xdg_session_type := x; env_display := env_display E;
     shutil_which := shutil_which E; now := now E; askstring := askstring E;
     askdirectory := askdirectory E; askyesno := askyesno E;
     makedirs_exn := makedirs_exn E; popen_exn := popen_exn E;
     signal_exn := signal_exn E; stdin_exn := stdin_exn E;
     exits_within := exits_within E; run_tool := run_tool E;
     open_exn := open_exn E; remove_exn := remove_exn E;
     log_exn := log_exn E |}.

Definition with_signal_exn (E : env) (f : signal -> option exn) : env :=
  {| xdg_session_type := xdg_session_type E; env_display := env_display E;
     shutil_which := shutil_which E; now := now E; askstring := askstring E;
     askdirectory := askdirectory E; askyesno := askyesno E;
     makedirs_exn := makedirs_exn E; popen_exn := popen_exn E;
     signal_exn := f; stdin_exn := stdin_exn E;
     exits_within := exits_within E; run_tool := run_tool E;
     open_exn := open_exn E; remove_exn := remove_exn E;
     log_exn := log_exn E |}.

Definition with_exits_within (E : env) (f : nat -> bool) : env :=
  {| xdg_session_type := xdg_session_type E; env_display := env_display E;
     shutil_which := shutil_which E; now := now E; askstring := askstring E;
     askdirectory := askdirectory E; askyesno := askyesno E;
     makedirs_exn := makedirs_exn E; popen_exn := popen_exn E;
     signal_exn := signal_exn E; stdin_exn := stdin_exn E;
     exits_within := f; run_tool := run_tool E;
     open_exn := open_exn E; remove_exn := remove_exn E;
     log_exn := log_exn E |}.

Definition with_which (E : env) (f : string -> bool) : env :=
  {| xdg_session_type := xdg_session_type E; env_display := env_display E;
     shutil_which := f; now := now E; askstring := askstring E;
     askdirectory := askdirectory E; askyesno := askyesno E;
     makedirs_exn := makedirs_exn E; popen_exn := popen_exn E;
     signal_exn := signal_exn E; stdin_exn := stdin_exn E;
     exits_within := exits_within E; run_tool := run_tool E;
     open_exn := open_exn E; remove_exn := remove_exn E;
     log_exn := log_exn E |}.

Definition with_run_tool (E : env)
    (f : list string -> gmap string string -> result (gmap string string)) : env :=
  {| xdg_session_type := xdg_session_type E; env_display := env_display E;
     shutil_which := shutil_which E; now := now E; askstring := askstring E;
     askdirectory := askdirectory E; askyesno := askyesno E;
     makedirs_exn := makedirs_exn E; popen_exn := popen_exn E;
     signal_exn := signal_exn E; stdin_exn := stdin_exn E;
     exits_within := exits_within E; run_tool := f;
     open_exn := open_exn E; remove_exn := remove_exn E;
     log_exn := log_exn E |}.

(** The child cannot be signalled. *)
Definition not_permitted (s : signal) : option exn :=
  Some (OSError "[Errno 1] Operation not permitted").

(** The concat step exits with a non-zero status; other commands write their
    output. *)
Definition concat_fails (args : list string) (fs : gmap string string)
  : result (gmap string string) :=
  if bool_decide ("concat" ∈ args)
  then Raise (CalledProcessError "Command returned non-zero exit status 1.")
  else tool_writes_output args fs.

(** *** Vocabulary of the further properties *)

(** The three buttons tell whether a child exists: with one, Stop and Pause
    are enabled and Start is not; without one, only Start is. *)
Definition buttons_consistent (g : RecorderGUI) : Prop :=
  match proc g with
  | Some _ => btn_start g = Disabled /\ btn_stop g = Normal /\ btn_pause g = Normal
  | None => btn_start g = Normal /\ btn_stop g = Disabled /\ btn_pause g = Disabled
  end.

(** [old] occurs somewhere in [s]. *)
Fixpoint occurs (old s : string) : bool :=
  match s with
  | EmptyString => String.prefix old EmptyString
  | String c s' => String.prefix old s || occurs old s'
  end.

(** What [stop_recording] leaves of the recorder [g] apart from the status
    line and the output path: no handle, no pause, the buttons of an idle
    window. *)
Definition stopped (g : RecorderGUI) : RecorderGUI :=
  set_btn_pause_text "Pause"
    (set_buttons Normal Disabled Disabled (set_paused false (set_proc None g))).

(** Lines 127-141 in two words: the tool [start_recording] looks for and the
    command line it builds, by backend. *)
Definition backend_tool (E : env) : string :=
  if is_wayland E then "wf-recorder" else "ffmpeg".

Definition capture_cmd (E : env) (out fps size_str : string) : string :=
  if is_wayland E then build_cmd_wayland out fps size_str default_audio
  else build_cmd_x11 out fps size_str (default ":0.0" (env_display E))
         default_audio default_webcam.

(** The exception the [try] block of [start_recording] meets for the command
    line [cmd], if any: from [shlex.split] or from [Popen]. *)
Definition launch_exn (E : env) (cmd : string) : option exn :=
  match Py.shlex_split cmd with
  | None => Some (ValueError "No closing quotation")
  | Some args => popen_exn E args
  end.

(** The recorder after the title dialog and the computation of the output
    path [out]. *)
Definition titled (title : option string) (out : string) (g : RecorderGUI)
  : RecorderGUI :=
  set_output_file (Some out) (set_title_text title g).

(** The recorder of [w] is [g] and its log is [l]. *)
Definition recorder_and_log (g : RecorderGUI) (l : list string) (w : world) : Prop :=
  gui w = g /\ log w = l.

(** The events [stop_recording] may add to the trace: a request to stop, a
    wait or the kill, a step of the postprocessing sequence, a printed line. *)
Definition is_print (e : event) : bool :=
  match e with
  | EPrint _ => true
  | _ => false
  end.

Definition stop_event (e : event) : bool :=
  is_request e || is_wait_or_kill e || is_postprocessing e || is_print e.

(** Every event that [m] adds to the trace satisfies [P]. *)
Definition emits {A} (P : event -> bool) (m : M A) : Prop :=
  forall w, exists evs, events (m w).1 = events w ++ evs /\ forallb P evs = true.

(** [args] is the argument list of one of the two tool runs of a stop for
    the recorder [g] with the raw path [out]. *)
Definition stop_tool_args (g : RecorderGUI) (out : string) (args : list string) : Prop :=
  Py.shlex_split (cmd_splash (size_str g) (fstr (title_text g))) = Some args \/
  Py.shlex_split (cmd_concat (final_path out)) = Some args.

(** More outside worlds that differ from a given one in one answer. *)
Definition with_askstring (E : env) (x : option string) : env :=
  {| xdg_session_type := xdg_session_type E; env_display := env_display E;
     shutil_which := shutil_which E; now := now E; askstring := x;
     askdirectory := askdirectory E; askyesno := askyesno E;
     makedirs_exn := makedirs_exn E; popen_exn := popen_exn E;
     signal_exn := signal_exn E; stdin_exn := stdin_exn E;
     exits_within := exits_within E; run_tool := run_tool E;
     open_exn := open_exn E; remove_exn := remove_exn E;
     log_exn := log_exn E |}.

Definition with_makedirs_exn (E : env) (f : string -> option exn) : env :=
  {| xdg_session_type := xdg_session_type E; env_display := env_display E;
     shutil_which := shutil_which E; now := now E; askstring := askstring E;
     askdirectory := askdirectory E; askyesno := askyesno E;
     makedirs_exn := f; popen_exn := popen_exn E;
     signal_exn := signal_exn E; stdin_exn := stdin_exn E;
     exits_within := exits_within E; run_tool := run_tool E;
     open_exn := open_exn E; remove_exn := remove_exn E;
     log_exn := log_exn E |}.

Definition with_popen_exn (E : env) (f : list string -> option exn) : env :=
  {| xdg_session_type := xdg_session_type E; env_display := env_display E;
     shutil_which := shutil_which E; now := now E; askstring := askstring E;
     askdirectory := askdirectory E; askyesno := askyesno E;
     makedirs_exn := makedirs_exn E; popen_exn := f;
     signal_exn := signal_exn E; stdin_exn := stdin_exn E;
     exits_within := exits_within E; run_tool := run_tool E;
     open_exn := open_exn E; remove_exn := remove_exn E;
     log_exn := log_exn E |}.

Definition with_askyesno (E : env) (b : bool) : env :=
  {| xdg_session_type := xdg_session_type E; env_display := env_display E;
     shutil_which := shutil_which E; now := now E; askstring := askstring E;
     askdirectory := askdirectory E; askyesno := b;
     makedirs_exn := makedirs_exn E; popen_exn := popen_exn E;
     signal_exn := signal_exn E; stdin_exn := stdin_exn E;
     exits_within := exits_within E; run_tool := run_tool E;
     open_exn := open_exn E; remove_exn := remove_exn E;
     log_exn := log_exn E |}.

Definition with_log_exn (E : env) (f : string -> option exn) : env :=
  {| xdg_session_type := xdg_session_type E; env_display := env_display E;
     shutil_which := shutil_which E; now := now E; askstring := askstring E;
     askdirectory := askdirectory E; askyesno := askyesno E;
     makedirs_exn := makedirs_exn E; popen_exn := popen_exn E;
     signal_exn := signal_exn E; stdin_exn := stdin_exn E;
     exits_within := exits_within E; run_tool := run_tool E;
     open_exn := open_exn E; remove_exn := remove_exn E;
     log_exn := f |}.

(** The log file cannot be written. *)
Definition disk_full (message : string) : option exn :=
  Some (OSError "[Errno 28] No space left on device").

(** The directory cannot be created; the executable cannot be started. *)
Definition permission_denied (path : string) : option exn :=
  Some (OSError ("[Errno 13] Permission denied: '" +:+ path +:+ "'")).

Definition exec_fails (args : list string) : option exn :=
  Some (OSError "[Errno 8] Exec format error").

(** A Wayland session of [fair_env]. *)
Definition wayland_env : env := with_session fair_env (Some "Wayland").

(** ** Lemmas on strings and on the lexer *)

(** The proofs below compute with string concatenation. *)
Local Arguments String.append !s1 s2 : simpl nomatch.

Lemma append_assoc (a b c : string) : (a +:+ b) +:+ c = a +:+ (b +:+ c).
Proof. induction a as [|x a IH]; simpl; [reflexivity | now rewrite IH]. Qed.

Lemma append_nil_r (a : string) : a +:+ EmptyString = a.
Proof. induction a as [|x a IH]; simpl; [reflexivity | now rewrite IH]. Qed.

Lemma word_char_inv c :
  word_char c = true ->
  Py.is_shlex_space c = false /\ Py.is_quote c = false /\ Py.is_escape c = false.
Proof.
  unfold word_char. rewrite !andb_true_iff, !negb_true_iff. tauto.
Qed.

(** Inside a token, a run of word characters is appended to the token. *)
Lemma lex_word_run p : forall tok rest,
  all_chars word_char p = true ->
  Py.lex Py.LWord tok (p +:+ rest) = Py.lex Py.LWord (tok +:+ p) rest.
Proof.
  induction p as [|c p IH]; intros tok rest H; simpl in *.
  - now rewrite append_nil_r.
  - apply andb_true_iff in H as [Hc Hp].
    destruct (word_char_inv c Hc) as (-> & -> & ->).
    rewrite IH by assumption. now rewrite append_assoc.
Qed.

(** Between tokens, a bare word starts a token. *)
Lemma lex_between_word p rest :
  bare_word p ->
  Py.lex Py.LBetween EmptyString (p +:+ rest) = Py.lex Py.LWord p rest.
Proof.
  intros [Hne H]. destruct p as [|c p]; [congruence|]. simpl in *.
  apply andb_true_iff in H as [Hc Hp].
  destruct (word_char_inv c Hc) as (-> & -> & ->).
  now rewrite lex_word_run.
Qed.

(** Between double quotes, a run without double quote and backslash is
    appended to the token, blanks and single quotes included. *)
Lemma lex_dquote_run t : forall tok rest,
  dq_safe t ->
  Py.lex (Py.LQuote dquote) tok (t +:+ rest) = Py.lex (Py.LQuote dquote) (tok +:+ t) rest.
Proof.
  unfold dq_safe.
  induction t as [|c t IH]; intros tok rest H; simpl in *.
  - now rewrite append_nil_r.
  - apply andb_true_iff in H as [Hc Ht].
    unfold dq_char in Hc. apply andb_true_iff in Hc as [H1 H2].
    apply negb_true_iff in H1, H2.
    unfold Py.is_escape. rewrite H1, H2. simpl.
    rewrite IH by assumption. now rewrite append_assoc.
Qed.

Ltac lex_steps :=
  repeat first
    [ rewrite lex_between_word by assumption
    | rewrite lex_word_run by
        (assumption || match goal with H : bare_word _ |- _ => exact (proj2 H) end)
    | rewrite lex_dquote_run by assumption
    | progress cbn ].

Lemma x11_args out fps size display audio webcam :
  dq_safe out -> bare_word fps -> bare_word size ->
  bare_word display -> bare_word audio -> bare_word webcam ->
  Py.shlex_split (build_cmd_x11 out fps size display audio webcam) =
  Some ["ffmpeg"; "-y"; "-video_size"; size; "-framerate"; fps;
        "-f"; "x11grab"; "-i"; display;
        "-f"; "v4l2"; "-video_size"; "300x300"; "-i"; webcam;
        "-f"; "pulse"; "-thread_queue_size"; "512"; "-ac"; "2"; "-i"; audio;
        "-filter_complex"; "[0:v][1:v] overlay=(main_w-overlay_w-20):20[v]";
        "-map"; "[v]"; "-map"; "2:a";
        "-c:v"; "libx264"; "-preset"; "veryfast"; "-pix_fmt"; "yuv420p";
        "-crf"; "23"; "-c:a"; "aac"; "-b:a"; "160k"; out].
Proof.
  intros Hout Hfps Hsize Hdisp Haud Hcam.
  unfold Py.shlex_split, build_cmd_x11, DQ.
  lex_steps. reflexivity.
Qed.

Lemma wayland_args out fps size audio :
  dq_safe out -> bare_word fps -> bare_word audio ->
  Py.shlex_split (build_cmd_wayland out fps size audio) =
  Some ["wf-recorder"; "-f"; out; "--audio=" +:+ audio;
        "--framerate"; fps; "--pixel-format"; "yuv420p"].
Proof.
  intros Hout Hfps Haud.
  unfold Py.shlex_split, build_cmd_wayland, DQ.
  lex_steps. rewrite ?append_assoc. reflexivity.
Qed.

Lemma concat_args final :
  dq_safe final ->
  Py.shlex_split (cmd_concat final) =
  Some ["ffmpeg"; "-y"; "-f"; "concat"; "-safe"; "0"; "-i"; "concat_list.txt";
        "-c"; "copy"; final].
Proof.
  intros Hf. unfold Py.shlex_split, cmd_concat, DQ.
  lex_steps. reflexivity.
Qed.


(** ** Command construction *)

(** C4, as amended: for well-formed inputs, the X11 capture command has the
    fps token and the frame-size token verbatim among its arguments; the
    Wayland capture command has the fps token verbatim and does not use the
    frame size at all: its arguments are the same for every frame size. *)
Theorem C4_capture_tokens out fps size display audio webcam :
  dq_safe out -> bare_word fps -> bare_word size ->
  bare_word display -> bare_word audio -> bare_word webcam ->
  (exists args,
     Py.shlex_split (build_cmd_x11 out fps size display audio webcam) = Some args /\
     fps ∈ args /\ size ∈ args) /\
  (exists args,
     Py.shlex_split (build_cmd_wayland out fps size audio) = Some args /\
     fps ∈ args /\
     forall size', Py.shlex_split (build_cmd_wayland out fps size' audio) = Some args).
Proof.
  intros Hout Hfps Hsize Hdisp Haud Hcam. split.
  - eexists. split; [apply x11_args; assumption|].
    split; [apply (list_elem_of_lookup_2 _ 5) | apply (list_elem_of_lookup_2 _ 3)];
      reflexivity.
  - eexists. split; [apply wayland_args; assumption|].
    split; [apply (list_elem_of_lookup_2 _ 5); reflexivity|].
    intros size'. apply wayland_args; assumption.
Qed.

Lemma bare_word_intro s :
  bool_decide (s <> EmptyString) && all_chars word_char s = true -> bare_word s.
Proof.
  intros H. apply andb_true_iff in H as [H1 H2].
  split; [now apply bool_decide_eq_true in H1 | exact H2].
Qed.

Lemma C4_capture_tokens_witness :
  (exists args,
     Py.shlex_split
       (build_cmd_x11 "/tmp/r.mp4" "30" "1920x1080" ":0.0" "default" "/dev/video0")
     = Some args /\ "30" ∈ args /\ "1920x1080" ∈ args) /\
  (exists args,
     Py.shlex_split (build_cmd_wayland "/tmp/r.mp4" "30" "1920x1080" "default")
     = Some args /\ "30" ∈ args /\
     forall size',
       Py.shlex_split (build_cmd_wayland "/tmp/r.mp4" "30" size' "default") = Some args).
Proof.
  apply (C4_capture_tokens "/tmp/r.mp4" "30" "1920x1080" ":0.0" "default" "/dev/video0");
    first [ apply bare_word_intro; vm_compute; reflexivity | vm_compute; reflexivity ].
Defined.

(** C4, as stated, fails on the Wayland backend: the command built for the
    frame size 1920x1080 has no such argument. *)
Lemma C4_wayland_omits_frame_size :
  exists args,
    Py.shlex_split (build_cmd_wayland "/tmp/r.mp4" "30" "1920x1080" default_audio)
    = Some args /\
    "1920x1080" ∉ args.
Proof.
  eexists. split; [vm_compute; reflexivity|].
  rewrite !not_elem_of_cons. repeat split; try discriminate.
  apply not_elem_of_nil.
Qed.

(** C3, as amended: for every title without double quote and backslash,
    single quotes, colons and blanks included, the splash command splits into
    a well-formed list of eighteen arguments whose text-overlay filter
    argument holds the title text verbatim between single quotes; nothing of
    the title is escaped or substituted. *)
Theorem C3_splash_args size title :
  bare_word size -> dq_safe title ->
  Py.shlex_split (cmd_splash size title) =
  Some ["ffmpeg"; "-y"; "-f"; "lavfi"; "-i";
        "color=c=black:s=" +:+ size +:+ ":d=5";
        "-f"; "lavfi"; "-i"; "anullsrc=r=44100:cl=stereo";
        "-vf";
        "drawtext=text='" +:+ title +:+
          "':fontcolor=white:fontsize=48:x=(w-text_w)/2:y=(h-text_h)/2";
        "-c:v"; "libx264"; "-c:a"; "aac"; "-shortest"; "splash.mp4"].
Proof.
  intros Hs Ht.
  unfold Py.shlex_split, cmd_splash, DQ, splash_file.
  lex_steps. rewrite !append_assoc. reflexivity.
Qed.

Lemma C3_splash_args_witness :
  Py.shlex_split (cmd_splash "1920x1080" "O'Brien: Demo") =
  Some ["ffmpeg"; "-y"; "-f"; "lavfi"; "-i";
        "color=c=black:s=" +:+ "1920x1080" +:+ ":d=5";
        "-f"; "lavfi"; "-i"; "anullsrc=r=44100:cl=stereo";
        "-vf";
        "drawtext=text='" +:+ "O'Brien: Demo" +:+
          "':fontcolor=white:fontsize=48:x=(w-text_w)/2:y=(h-text_h)/2";
        "-c:v"; "libx264"; "-c:a"; "aac"; "-shortest"; "splash.mp4"].
Proof.
  apply (C3_splash_args "1920x1080" "O'Brien: Demo");
    first [ apply bare_word_intro; vm_compute; reflexivity | vm_compute; reflexivity ].
Defined.

(** C3, as stated, fails: a title with one double quote leaves a quotation
    open, so that splitting the command raises; and for the title of the
    specification's example the filter argument has lost its double quotes. *)
Lemma C3_double_quote_breaks_splash :
  Py.shlex_split (cmd_splash "1920x1080" title_one_dquote) = None /\
  exists args,
    Py.shlex_split (cmd_splash "1920x1080" title_obrien) = Some args /\
    args !! 11%nat =
      Some "drawtext=text='O'Brien: Demo':fontcolor=white:fontsize=48:x=(w-text_w)/2:y=(h-text_h)/2" /\
    args !! 11%nat <>
      Some ("drawtext=text='" +:+ title_obrien +:+
            "':fontcolor=white:fontsize=48:x=(w-text_w)/2:y=(h-text_h)/2").
Proof.
  split; [vm_compute; reflexivity|].
  eexists. split; [vm_compute; reflexivity|].
  split; [reflexivity|]. vm_compute. discriminate.
Qed.


(** ** The session operations *)

Lemma log_event_eq E m w :
  log_event E m w =
  (match log_exn E m with None => add_log m w | Some _ => w end, log_result E m).
Proof.
  unfold log_event, log_result, raise, add_log.
  destruct (log_exn E m); reflexivity.
Qed.

Lemma log_event_ok E m w :
  log_exn E m = None -> log_event E m w = (add_log m w, Ok tt).
Proof. intros H. rewrite log_event_eq. unfold log_result. now rewrite H. Qed.

Lemma report_error_eq E title line e w :
  report_error E title line e w =
  let w1 := add_events [EDialog ShowError title (str_of_exn e)] w in
  let m := line +:+ str_of_exn e in
  (match log_exn E m with None => add_log m w1 | Some _ => w1 end, log_result E m).
Proof.
  unfold report_error, bind, messagebox, emit. rewrite log_event_eq. reflexivity.
Qed.

Lemma report_error_gui E title line e w :
  gui (report_error E title line e w).1 = gui w.
Proof. rewrite report_error_eq. cbn. destruct (log_exn E _); reflexivity. Qed.

(** The handler of [stop_recording]: the printed line, and the log line when
    it can be written. *)
Lemma stop_handler_eq E e w :
  stop_handler E e w =
  let w1 := add_events [EPrint ("❌ Stop error: " +:+ str_of_exn e)] w in
  let m := "Failed during stop: " +:+ str_of_exn e in
  (match log_exn E m with None => add_log m w1 | Some _ => w1 end, log_result E m).
Proof.
  unfold stop_handler, bind, print, emit. rewrite log_event_eq. reflexivity.
Qed.

Lemma stop_finally_eq w :
  stop_finally w =
  (with_gui (fun g => set_btn_pause_text "Pause"
               (set_buttons Normal Disabled Disabled
                  (set_paused false (set_proc None g)))) w, Ok tt).
Proof. reflexivity. Qed.

Lemma stop_recording_unfold E w p :
  proc (gui w) = Some p ->
  stop_recording E w =
  try_finally (try_except (stop_body E p) Exception (stop_handler E)) stop_finally
    (stop_begin w).1.
Proof.
  intros Hp. unfold stop_recording, bind at 1, get_gui. rewrite Hp. reflexivity.
Qed.

(** [stop_recording] with a child: the world it ends in is the one its
    [finally] block makes of the world the [try ... except] ends in, and it
    returns or raises as the [try ... except] does. *)
Lemma stop_recording_eq E w p :
  proc (gui w) = Some p ->
  stop_recording E w =
  (with_gui (fun g => set_btn_pause_text "Pause"
               (set_buttons Normal Disabled Disabled
                  (set_paused false (set_proc None g))))
     (try_except (stop_body E p) Exception (stop_handler E) (stop_begin w).1).1,
   (try_except (stop_body E p) Exception (stop_handler E) (stop_begin w).1).2).
Proof.
  intros Hp. rewrite (stop_recording_unfold E w p Hp).
  unfold try_finally.
  destruct (try_except (stop_body E p) Exception (stop_handler E) (stop_begin w).1)
    as [w1 r].
  reflexivity.
Qed.

(** The [try ... except Exception] of [stop_recording] raises only what the
    log write of its handler raised. *)
Lemma stop_try_result E p w :
  (try_except (stop_body E p) Exception (stop_handler E) w).2 =
  match (stop_body E p w).2 with
  | Ok _ => Ok tt
  | Raise e => log_result E ("Failed during stop: " +:+ str_of_exn e)
  end.
Proof.
  unfold try_except.
  destruct (stop_body E p w) as [w2 [[]|e]]; [reflexivity|].
  cbn [Exception snd]. rewrite stop_handler_eq. reflexivity.
Qed.

(** ** The invariants of the reachable worlds *)

(** What [launch] makes of the recorder: the child is running, or nothing
    runs; in the last case the log write failed after the child was
    started. *)
Lemma launch_gui E out cmd w :
  let g := set_buttons Disabled Normal Normal (set_status status_recording (gui w)) in
  (exists p, gui (launch E out cmd w).1 = set_paused false (set_proc (Some p) g)) \/
  gui (launch E out cmd w).1 = set_buttons Normal Disabled Disabled (set_proc None g) \/
  gui (launch E out cmd w).1 =
    set_buttons Normal Disabled Disabled (set_proc None (set_paused false g)).
Proof.
  unfold launch, try_except, bind, update, shlex_split, subprocess_Popen,
    messagebox, emit, ret, raise.
  cbn -[Py.shlex_split log_event].
  destruct (Py.shlex_split cmd) as [args|]; cbn -[log_event].
  2:{ right; left. rewrite log_event_eq. destruct (log_exn E _); reflexivity. }
  destruct (popen_exn E args); cbn -[log_event].
  { right; left. rewrite log_event_eq. destruct (log_exn E _); reflexivity. }
  rewrite (log_event_eq E ("Started recording: " +:+ out)). unfold log_result.
  destruct (log_exn E ("Started recording: " +:+ out)); cbn -[log_event].
  - right; right. rewrite log_event_eq. destruct (log_exn E _); reflexivity.
  - left. eexists. reflexivity.
Qed.

Lemma select_backend_gui E out fps sz w :
  gui (select_backend E out fps sz w).1 = gui w \/
  exists cmd, gui (select_backend E out fps sz w).1 = gui (launch E out cmd w).1.
Proof.
  unfold select_backend.
  destruct (is_wayland E), (negb (which E _)); eauto;
    left; unfold bind, messagebox, emit; rewrite log_event_eq;
    destruct (log_exn E _); reflexivity.
Qed.

(** [start_recording] without a child, step by step. *)
Lemma start_recording_idle E w :
  proc (gui w) = None ->
  let w1 := with_gui (set_title_text (askstring E)) w in
  let out_dir := Py.strip (output_dir (gui w)) in
  let out := Py.path_join out_dir ("recording_" +:+ now E +:+ ".mp4") in
  start_recording E w =
  if falsy (askstring E)
  then messagebox ShowError "Missing" "Please enter a video title." w1
  else match makedirs_exn E out_dir with
       | Some e => (w1, Raise e)
       | None =>
           select_backend E out (Py.strip (fps (gui w))) (Py.strip (size_str (gui w)))
             (with_gui (set_output_file (Some out)) (emit (EMakedirs out_dir) w1).1)
       end.
Proof.
  intros Hp. unfold start_recording, bind, get_gui, os_makedirs. rewrite Hp.
  cbn [update].
  destruct (falsy (askstring E)); [reflexivity|].
  destruct (makedirs_exn E _); reflexivity.
Qed.

(** What [start_recording] makes of the recorder when no child exists. *)
Lemma start_recording_gui E w :
  proc (gui w) = None ->
  let g0 := set_title_text (askstring E) (gui w) in
  gui (start_recording E w).1 = g0 \/
  exists out,
    let g1 := set_output_file (Some out) g0 in
    let g2 := set_buttons Disabled Normal Normal (set_status status_recording g1) in
    gui (start_recording E w).1 = g1 \/
    (exists p, gui (start_recording E w).1 = set_paused false (set_proc (Some p) g2)) \/
    gui (start_recording E w).1 = set_buttons Normal Disabled Disabled (set_proc None g2) \/
    gui (start_recording E w).1 =
      set_buttons Normal Disabled Disabled (set_proc None (set_paused false g2)).
Proof.
  intros Hp. rewrite (start_recording_idle E w Hp).
  destruct (falsy (askstring E)); [left; reflexivity|].
  destruct (makedirs_exn E _); [left; reflexivity|].
  right. eexists.
  match goal with |- context [select_backend E ?o ?f ?z ?w'] =>
    destruct (select_backend_gui E o f z w') as [H|[cmd H]];
    [left; rewrite H; reflexivity|right; rewrite H; apply (launch_gui E o cmd w')]
  end.
Qed.

Lemma start_recording_busy E w p :
  proc (gui w) = Some p ->
  start_recording E w =
  ({| gui := gui w; files := files w; log := log w;
      events := events w ++
        [EDialog ShowWarning "Already running" "Recording is already in progress."] |},
   Ok tt).
Proof.
  intros Hp. unfold start_recording, bind, get_gui. rewrite Hp. reflexivity.
Qed.

Lemma start_recording_consistent E w :
  ui_consistent (gui w) -> ui_consistent (gui (start_recording E w).1).
Proof.
  destruct (proc (gui w)) as [p|] eqn:Hp.
  - now rewrite (start_recording_busy E w p Hp).
  - intros H. unfold ui_consistent in H. rewrite Hp in H. destruct H as [H1 H2].
    destruct (start_recording_gui E w Hp) as [->|(out & [->|[[p ->]|[->| ->]]])];
      unfold ui_consistent; cbn; rewrite ?Hp; auto.
Qed.

Lemma start_recording_display E w :
  display_consistent (gui w) -> display_consistent (gui (start_recording E w).1).
Proof.
  destruct (proc (gui w)) as [p|] eqn:Hp.
  - now rewrite (start_recording_busy E w p Hp).
  - intros H. unfold display_consistent in H. rewrite Hp in H. destruct H as [H1 H2].
    destruct (start_recording_gui E w Hp) as [->|(out & [->|[[p ->]|[->| ->]]])];
      unfold display_consistent; cbn; rewrite ?Hp; auto.
Qed.

(** [toggle_pause] with a child that is not suspended.  When the signal is
    delivered, the status line and the pause button change, then the log line
    is written, then the pause flag is set; when the signal or the log write
    raises, the [except] block reports it. *)
Lemma toggle_pause_running E w p :
  proc (gui w) = Some p -> paused (gui w) = false ->
  toggle_pause E w =
  match signal_exn E SIGSTOP with
  | None =>
      let w1 :=
        {| gui := set_btn_pause_text "Resume" (set_status "Paused" (gui w));
           files := files w; log := log w;
           events := events w ++ [ESignal SIGSTOP true] |} in
      match log_exn E "Recording paused" with
      | None =>
          ({| gui := set_paused true (gui w1);
              files := files w;
              log := log w ++ ["Recording paused"];
              events := events w1 |}, Ok tt)
      | Some e => report_error E "Pause Error" "Failed to pause recording: " e w1
      end
  | Some e =>
      report_error E "Pause Error" "Failed to pause recording: " e
        (add_events [ESignal SIGSTOP false] w)
  end.
Proof.
  intros Hp Hpa. unfold toggle_pause, bind at 1, get_gui. rewrite Hp, Hpa.
  cbn [negb]. unfold try_except, send_signal.
  destruct (signal_exn E SIGSTOP) as [e|]; [reflexivity|].
  unfold bind at 1. unfold emit at 1.
  unfold bind at 1. unfold update at 1.
  unfold bind at 1. unfold update at 1.
  unfold bind at 1. rewrite log_event_eq. unfold log_result.
  destruct (log_exn E "Recording paused"); reflexivity.
Qed.

(** [toggle_pause] with a suspended child. *)
Lemma toggle_pause_paused E w p :
  proc (gui w) = Some p -> paused (gui w) = true ->
  toggle_pause E w =
  match signal_exn E SIGCONT with
  | None =>
      let w1 :=
        {| gui := set_btn_pause_text "Pause" (set_status status_recording (gui w));
           files := files w; log := log w;
           events := events w ++ [ESignal SIGCONT true] |} in
      match log_exn E "Recording resumed" with
      | None =>
          ({| gui := set_paused false (gui w1);
              files := files w;
              log := log w ++ ["Recording resumed"];
              events := events w1 |}, Ok tt)
      | Some e => report_error E "Resume Error" "Failed to resume recording: " e w1
      end
  | Some e =>
      report_error E "Resume Error" "Failed to resume recording: " e
        (add_events [ESignal SIGCONT false] w)
  end.
Proof.
  intros Hp Hpa. unfold toggle_pause, bind at 1, get_gui. rewrite Hp, Hpa.
  cbn [negb]. unfold try_except, send_signal.
  destruct (signal_exn E SIGCONT) as [e|]; [reflexivity|].
  unfold bind at 1. unfold emit at 1.
  unfold bind at 1. unfold update at 1.
  unfold bind at 1. unfold update at 1.
  unfold bind at 1. rewrite log_event_eq. unfold log_result.
  destruct (log_exn E "Recording resumed"); reflexivity.
Qed.

Lemma toggle_pause_idle E w :
  proc (gui w) = None -> toggle_pause E w = (w, Ok tt).
Proof.
  intros Hp. unfold toggle_pause, bind, get_gui. rewrite Hp. reflexivity.
Qed.

(** What [toggle_pause] makes of the recorder of a child: nothing, the new
    status line and button text only (the log write failed), or these and
    the new pause flag. *)
Lemma toggle_pause_gui E w p :
  proc (gui w) = Some p ->
  gui (toggle_pause E w).1 = gui w \/
  gui (toggle_pause E w).1 = shown_toggled (gui w) \/
  gui (toggle_pause E w).1 = set_paused (negb (paused (gui w))) (shown_toggled (gui w)).
Proof.
  intros Hp. unfold shown_toggled. destruct (paused (gui w)) eqn:Hpa.
  - rewrite (toggle_pause_paused E w p Hp Hpa).
    destruct (signal_exn E SIGCONT); [left; rewrite report_error_gui; reflexivity|].
    cbv zeta. destruct (log_exn E "Recording resumed");
      [right; left; rewrite report_error_gui; reflexivity|right; right; reflexivity].
  - rewrite (toggle_pause_running E w p Hp Hpa).
    destruct (signal_exn E SIGSTOP); [left; rewrite report_error_gui; reflexivity|].
    cbv zeta. destruct (log_exn E "Recording paused");
      [right; left; rewrite report_error_gui; reflexivity|right; right; reflexivity].
Qed.

Lemma stop_recording_idle E w :
  proc (gui w) = None -> stop_recording E w = (w, Ok tt).
Proof.
  intros Hp. unfold stop_recording, bind, get_gui. rewrite Hp. reflexivity.
Qed.

Lemma toggle_pause_display E w :
  display_consistent (gui w) -> display_consistent (gui (toggle_pause E w).1).
Proof.
  intros H. destruct (proc (gui w)) as [p|] eqn:Hp.
  - destruct (toggle_pause_gui E w p Hp) as [->|[->| ->]]; [exact H| |];
      unfold display_consistent, shown_toggled in *; rewrite Hp in H;
      destruct (paused (gui w)); cbn; rewrite Hp; tauto.
  - now rewrite (toggle_pause_idle E w Hp).
Qed.

(** When the log can be written, the pause flag follows the display. *)
Lemma toggle_pause_consistent E w :
  log_writable E ->
  ui_consistent (gui w) -> ui_consistent (gui (toggle_pause E w).1).
Proof.
  intros Hlog H. destruct (proc (gui w)) as [p|] eqn:Hp.
  - destruct (paused (gui w)) eqn:Hpa.
    + rewrite (toggle_pause_paused E w p Hp Hpa).
      destruct (signal_exn E SIGCONT); [now rewrite report_error_gui|].
      cbv zeta. rewrite Hlog.
      unfold ui_consistent in *. rewrite Hp in H. cbn. rewrite Hp. tauto.
    + rewrite (toggle_pause_running E w p Hp Hpa).
      destruct (signal_exn E SIGSTOP); [now rewrite report_error_gui|].
      cbv zeta. rewrite Hlog.
      unfold ui_consistent in *. rewrite Hp in H. cbn. rewrite Hp. tauto.
  - now rewrite (toggle_pause_idle E w Hp).
Qed.

Lemma stop_recording_consistent E w :
  ui_consistent (gui w) -> ui_consistent (gui (stop_recording E w).1).
Proof.
  intros H. destruct (proc (gui w)) as [p|] eqn:Hp.
  - rewrite (stop_recording_eq E w p Hp). unfold ui_consistent. cbn. tauto.
  - now rewrite (stop_recording_idle E w Hp).
Qed.

Lemma stop_recording_display E w :
  display_consistent (gui w) -> display_consistent (gui (stop_recording E w).1).
Proof.
  intros H. destruct (proc (gui w)) as [p|] eqn:Hp.
  - rewrite (stop_recording_eq E w p Hp). unfold display_consistent. cbn. tauto.
  - now rewrite (stop_recording_idle E w Hp).
Qed.

Lemma on_quit_gui E w :
  gui (on_quit E w).1 = gui w \/
  exists w', gui w' = gui w /\ gui (on_quit E w).1 = gui (stop_recording E w').1.
Proof.
  destruct (proc (gui w)) as [p|] eqn:Hp.
  - assert (Hq : on_quit E w =
              (messagebox AskYesNo "Quit" "Recording is running. Stop and quit?" ;;
               if askyesno E then stop_recording E ;; emit EDestroy else ret tt) w).
    { unfold on_quit, bind at 1, get_gui. rewrite Hp. reflexivity. }
    rewrite Hq. unfold bind, messagebox, emit. cbv beta iota.
    destruct (askyesno E); [|left; reflexivity].
    right.
    exists {| gui := gui w; files := files w; log := log w;
              events := events w ++
                [EDialog AskYesNo "Quit" "Recording is running. Stop and quit?"] |}.
    split; [reflexivity|].
    match goal with |- context [stop_recording E ?w'] =>
      destruct (stop_recording E w') as [w2 [[]|e]] end; reflexivity.
  - left. unfold on_quit, bind, get_gui. rewrite Hp. reflexivity.
Qed.

Lemma run_op_display E o w :
  display_consistent (gui w) -> display_consistent (gui (run_op E o w).1).
Proof.
  intros H. destruct o; cbn [run_op].
  - now apply start_recording_display.
  - now apply toggle_pause_display.
  - now apply stop_recording_display.
  - destruct (on_quit_gui E w) as [->|(w' & Hw' & ->)]; [exact H|].
    apply stop_recording_display. now rewrite Hw'.
  - unfold browse_dir. destruct (String.eqb _ _); exact H.
  - exact H.
Qed.

Lemma run_op_consistent E o w :
  log_writable E ->
  ui_consistent (gui w) -> ui_consistent (gui (run_op E o w).1).
Proof.
  intros Hlog H. destruct o; cbn [run_op].
  - now apply start_recording_consistent.
  - now apply toggle_pause_consistent.
  - now apply stop_recording_consistent.
  - destruct (on_quit_gui E w) as [->|(w' & Hw' & ->)]; [exact H|].
    apply stop_recording_consistent. now rewrite Hw'.
  - unfold browse_dir. destruct (String.eqb _ _); exact H.
  - exact H.
Qed.

(** Every reachable world is consistent in its display. *)
Lemma reachable_display w : reachable w -> display_consistent (gui w).
Proof.
  induction 1 as [sw sh home fs lg | E o w _ IH | fs w _ IH].
  - split; reflexivity.
  - now apply run_op_display.
  - exact IH.
Qed.
(** ** Properties kept along a computation *)

Section Preserves.
Variable I : world -> Prop.

Lemma preserves_ret {A} (a : A) : preserves I (ret a).
Proof. intros w H. exact H. Qed.

Lemma preserves_raise {A} e : preserves I (@raise A e).
Proof. intros w H. exact H. Qed.

Lemma preserves_bind {A B} (m : M A) (k : A -> M B) :
  preserves I m -> (forall a, preserves I (k a)) -> preserves I (bind m k).
Proof.
  intros Hm Hk w H. unfold bind. specialize (Hm w H).
  destruct (m w) as [w' [a|e]]; [apply Hk|]; exact Hm.
Qed.

Lemma preserves_try_except {A} (m : M A) c h :
  preserves I m -> (forall e, preserves I (h e)) -> preserves I (try_except m c h).
Proof.
  intros Hm Hh w H. unfold try_except. specialize (Hm w H).
  destruct (m w) as [w' [a|e]]; [exact Hm|].
  destruct (c e); [apply Hh|]; exact Hm.
Qed.

Lemma preserves_try_finally {A} (m : M A) f :
  preserves I m -> preserves I f -> preserves I (try_finally m f).
Proof.
  intros Hm Hf w H. unfold try_finally. specialize (Hm w H).
  destruct (m w) as [w' r]. specialize (Hf w' Hm).
  destruct (f w') as [w'' [a|e]]; exact Hf.
Qed.

Lemma preserves_get_gui (k : RecorderGUI -> M unit) :
  (forall g, preserves I (k g)) -> preserves I (bind get_gui k).
Proof. intros Hk w H. apply Hk, H. Qed.
End Preserves.

Section OutsideStable.
Variable I : world -> Prop.
Hypothesis HI : outside_stable I.

Lemma preserves_emit e : preserves I (emit e).
Proof. intros w H. apply (keeps_events I HI w [e] H). Qed.

Lemma preserves_log_event E m : preserves I (log_event E m).
Proof.
  intros w H. rewrite log_event_eq. cbn [fst].
  destruct (log_exn E m); [exact H|]. apply (keeps_log I HI), H.
Qed.

Lemma preserves_set_files fs : preserves I (set_files fs).
Proof. intros w H. apply (keeps_files I HI), H. Qed.

Lemma preserves_send_signal E s : preserves I (send_signal E s).
Proof.
  unfold send_signal. destruct (signal_exn E s).
  - apply preserves_bind; [apply preserves_emit|intros; apply preserves_raise].
  - apply preserves_emit.
Qed.

Lemma preserves_graceful_stop E p : preserves I (graceful_stop E p).
Proof.
  unfold graceful_stop.
  destruct (is_wayland E); [apply preserves_send_signal|].
  destruct (p_stdin p); [|apply preserves_ret].
  apply preserves_try_except; [|intros; apply preserves_send_signal].
  unfold stdin_write. destruct (stdin_exn E).
  - apply preserves_bind; [apply preserves_emit|intros; apply preserves_raise].
  - apply preserves_emit.
Qed.

Lemma preserves_wait_child E : preserves I (wait_child E).
Proof.
  unfold wait_child, kill, proc_wait.
  apply preserves_try_except.
  - destruct (exits_within E 20); [apply preserves_emit|].
    apply preserves_bind; [apply preserves_emit|intros; apply preserves_raise].
  - intros _. apply preserves_bind; [apply preserves_send_signal|].
    intros; apply preserves_emit.
Qed.

Lemma preserves_subprocess_run E args : preserves I (subprocess_run E args).
Proof.
  intros w H. unfold subprocess_run.
  destruct (run_tool E args (files w)) as [fs|e].
  - apply preserves_bind; [apply preserves_emit|intros; apply preserves_set_files|exact H].
  - apply preserves_bind; [apply preserves_emit|intros; apply preserves_raise|exact H].
Qed.

Lemma preserves_write_file E path content : preserves I (write_file E path content).
Proof.
  intros w H. unfold write_file. destruct (open_exn E path); [exact H|].
  apply preserves_bind; [apply preserves_emit|intros; apply preserves_set_files|exact H].
Qed.

Lemma preserves_os_remove E path : preserves I (os_remove E path).
Proof.
  intros w H. unfold os_remove. destruct (files w !! path).
  - destruct (remove_exn E path).
    + apply preserves_bind; [apply preserves_emit|intros; apply preserves_raise|exact H].
    + apply preserves_bind; [apply preserves_emit|intros; apply preserves_set_files|exact H].
  - apply preserves_bind; [apply preserves_emit|intros; apply preserves_raise|exact H].
Qed.

Lemma preserves_shlex_split cmd (k : list string -> M unit) :
  (forall args, preserves I (k args)) -> preserves I (bind (shlex_split cmd) k).
Proof.
  intros Hk. apply preserves_bind; [|exact Hk].
  unfold shlex_split. destruct (Py.shlex_split cmd);
    [apply preserves_ret|apply preserves_raise].
Qed.

Lemma preserves_make_final E g out final :
  preserves I (make_final E g out final).
Proof.
  unfold make_final. apply preserves_shlex_split. intros args.
  apply preserves_bind; [apply preserves_subprocess_run|intros _].
  apply preserves_bind; [apply preserves_write_file|intros _].
  apply preserves_shlex_split. intros args'. apply preserves_subprocess_run.
Qed.

Lemma preserves_stop_handler E e : preserves I (stop_handler E e).
Proof.
  unfold stop_handler, print.
  apply preserves_bind; [apply preserves_emit|intros; apply preserves_log_event].
Qed.

(** Given that the updates of the recorder made by [cleanup], [report],
    [stop_begin] and [stop_finally] keep [I], so does [stop_recording]. *)
Hypothesis Hupd_status : forall st, preserves I (update (set_status st)).
Hypothesis Hupd_out : forall f, preserves I (update (set_output_file (Some f))).
Hypothesis Hbegin : preserves I stop_begin.
Hypothesis Hfinally : preserves I stop_finally.

Lemma preserves_postprocess E : preserves I (postprocess E).
Proof.
  unfold postprocess. apply preserves_get_gui. intros g.
  apply preserves_bind.
  { destruct (output_file g); [apply preserves_ret|apply preserves_raise]. }
  intros out.
  apply preserves_bind; [apply preserves_make_final|intros _].
  apply preserves_bind.
  { unfold cleanup. repeat (apply preserves_bind; [apply preserves_os_remove|intros _]).
    apply Hupd_out. }
  intros _. unfold report, os_path_exists, print.
  apply preserves_bind; [intros w H; exact H|intros []].
  - apply preserves_bind; [apply Hupd_status|intros _].
    apply preserves_bind; [apply preserves_emit|intros; apply preserves_log_event].
  - apply preserves_bind; [apply Hupd_status|intros _].
    apply preserves_bind; [apply preserves_emit|intros; apply preserves_log_event].
Qed.

Lemma preserves_stop_recording E : preserves I (stop_recording E).
Proof.
  unfold stop_recording. apply preserves_get_gui. intros g.
  destruct (proc g) as [p|]; [|apply preserves_ret].
  apply preserves_bind; [apply Hbegin|intros _].
  apply preserves_try_finally; [|apply Hfinally].
  apply preserves_try_except; [|apply preserves_stop_handler].
  unfold stop_body.
  apply preserves_bind; [apply preserves_graceful_stop|intros _].
  apply preserves_bind; [apply preserves_wait_child|intros _].
  apply preserves_postprocess.
Qed.
End OutsideStable.

(** ** The trace of [stop_recording] *)

(** The handler prints and logs: it leaves the recorder and the files. *)
Lemma stop_handler_gui E e w : gui (stop_handler E e w).1 = gui w.
Proof. rewrite stop_handler_eq. cbn. destruct (log_exn E _); reflexivity. Qed.

Lemma stop_handler_files E e w : files (stop_handler E e w).1 = files w.
Proof. rewrite stop_handler_eq. cbn. destruct (log_exn E _); reflexivity. Qed.

Lemma stop_handler_events E e w :
  events (stop_handler E e w).1 =
  events w ++ [EPrint ("❌ Stop error: " +:+ str_of_exn e)].
Proof. rewrite stop_handler_eq. cbn. destruct (log_exn E _); reflexivity. Qed.

Lemma stop_handler_log E e w :
  log (stop_handler E e w).1 =
  match log_exn E ("Failed during stop: " +:+ str_of_exn e) with
  | None => log w ++ ["Failed during stop: " +:+ str_of_exn e]
  | Some _ => log w
  end.
Proof. rewrite stop_handler_eq. cbn. destruct (log_exn E _); reflexivity. Qed.

Lemma graceful_stop_eq E p w :
  graceful_stop E p w = (add_events (request_events E p) w, request_result E p).
Proof.
  unfold graceful_stop, request_events, request_result, try_except, stdin_write,
    send_signal, bind, emit, raise, ret, add_events.
  destruct (is_wayland E).
  - destruct (signal_exn E SIGINT); reflexivity.
  - destruct (p_stdin p); [|cbn; now rewrite app_nil_r; destruct w].
    destruct (stdin_exn E); [|reflexivity].
    destruct (signal_exn E SIGINT); cbn; rewrite <- app_assoc; reflexivity.
Qed.

Lemma wait_child_eq E w :
  wait_child E w = (add_events (wait_events E) w, wait_result E).
Proof.
  unfold wait_child, wait_events, wait_result, try_except, proc_wait, kill,
    send_signal, bind, emit, raise, add_events.
  destruct (exits_within E 20); [reflexivity|]. cbn.
  destruct (signal_exn E SIGKILL); cbn; rewrite <- ?app_assoc; reflexivity.
Qed.

(** The [try] block of [stop_recording]: the request, the bounded wait, and
    the postprocessing sequence when neither raised. *)
Lemma stop_body_eq E p w :
  stop_body E p w =
  let w1 := add_events (request_events E p) w in
  match request_result E p with
  | Raise e => (w1, Raise e)
  | Ok _ =>
      let w2 := add_events (wait_events E) w1 in
      match wait_result E with
      | Raise e => (w2, Raise e)
      | Ok _ => postprocess E w2
      end
  end.
Proof.
  unfold stop_body, bind. rewrite graceful_stop_eq.
  destruct (request_result E p); [|reflexivity].
  rewrite wait_child_eq. destruct (wait_result E); reflexivity.
Qed.

Lemma extends_stable evs0 : outside_stable (extends evs0).
Proof.
  split.
  - intros w evs [l H]. exists (l ++ evs). cbn. rewrite H. now rewrite app_assoc.
  - intros w m H. exact H.
  - intros w fs H. exact H.
Qed.

Lemma extends_update evs0 f : preserves (extends evs0) (update f).
Proof. intros w H. exact H. Qed.

Lemma postprocess_extends E w : extends (events w) (postprocess E w).1.
Proof.
  apply (preserves_postprocess _ (extends_stable _));
    try (intros; apply extends_update).
  exists []. now rewrite app_nil_r.
Qed.

Lemma no_post_after_reap l : forall b,
  forallb (fun e => negb (is_postprocessing e)) l = true ->
  forall l', post_after_reap b (l ++ l') = post_after_reap (b || existsb is_reap l) l'.
Proof.
  induction l as [|e l IH]; intros b H l'; cbn in *.
  - now rewrite orb_false_r.
  - apply andb_true_iff in H as [He Hl]. apply negb_true_iff in He. rewrite He.
    rewrite IH by assumption. now rewrite orb_assoc.
Qed.

Lemma post_after_reap_true l : post_after_reap true l = true.
Proof. induction l as [|e l IH]; cbn; [reflexivity|]. destruct (is_postprocessing e); exact IH. Qed.

Lemma request_events_no_post E p :
  forallb (fun e => negb (is_postprocessing e)) (request_events E p) = true.
Proof.
  unfold request_events.
  destruct (is_wayland E), (p_stdin p), (stdin_exn E); reflexivity.
Qed.

Lemma request_events_are_requests E p :
  forallb is_request (request_events E p) = true.
Proof.
  unfold request_events.
  destruct (is_wayland E), (p_stdin p), (stdin_exn E); reflexivity.
Qed.

Lemma wait_events_no_post E :
  forallb (fun e => negb (is_postprocessing e)) (wait_events E) = true.
Proof.
  unfold wait_events. destruct (exits_within E 20), (signal_exn E SIGKILL); reflexivity.
Qed.

Lemma wait_events_reap E :
  existsb is_reap (wait_events E) =
  match wait_result E with Ok _ => true | Raise _ => false end.
Proof.
  unfold wait_events, wait_result.
  destruct (exits_within E 20), (signal_exn E SIGKILL); reflexivity.
Qed.

(** The events [stop_recording] adds when a child exists. *)
Lemma stop_recording_events E w p :
  proc (gui w) = Some p ->
  exists tail,
    events (stop_recording E w).1 =
      events w ++ request_events E p ++ tail /\
    match request_result E p with
    | Raise e => tail = [EPrint ("❌ Stop error: " +:+ str_of_exn e)]
    | Ok _ =>
        exists post, tail = wait_events E ++ post /\
        match wait_result E with
        | Raise e => post = [EPrint ("❌ Stop error: " +:+ str_of_exn e)]
        | Ok _ => True
        end
    end.
Proof.
  intros Hp. rewrite (stop_recording_eq E w p Hp). cbn [fst with_gui events].
  unfold try_except. rewrite stop_body_eq. cbv zeta.
  destruct (request_result E p) as [[]|e].
  - destruct (wait_result E) as [[]|e].
    + match goal with |- context [postprocess E ?w2] =>
        destruct (postprocess_extends E w2) as [evs Hevs];
        destruct (postprocess E w2) as [w3 [[]|e]] end;
        cbn [Exception fst] in *; rewrite ?stop_handler_events.
      * exists (wait_events E ++ evs). rewrite Hevs. cbn. rewrite <- !app_assoc.
        split; [reflexivity|]. eauto.
      * exists (wait_events E ++ evs ++ [EPrint ("❌ Stop error: " +:+ str_of_exn e)]).
        rewrite Hevs. cbn. rewrite <- !app_assoc. split; [reflexivity|]. eauto.
    + cbn [Exception fst]. rewrite stop_handler_events. cbn.
      eexists. rewrite <- !app_assoc. split; [reflexivity|]. eauto.
  - cbn [Exception fst]. rewrite stop_handler_events. cbn.
    eexists. rewrite <- !app_assoc. split; reflexivity.
Qed.

(** ** The output path *)

Lemma has_output_file_stable : outside_stable has_output_file.
Proof. split; intros; assumption. Qed.

Lemma stop_recording_keeps_output_file E :
  preserves has_output_file (stop_recording E).
Proof.
  apply (preserves_stop_recording _ has_output_file_stable).
  - intros st w H. exact H.
  - intros f w H. discriminate.
  - intros w H. exact H.
  - intros w H. exact H.
Qed.

Lemma run_op_keeps_output_file E o :
  preserves has_output_file (run_op E o).
Proof.
  intros w H. unfold has_output_file in *. destruct o; cbn [run_op].
  - destruct (proc (gui w)) as [p|] eqn:Hp.
    + now rewrite (start_recording_busy E w p Hp).
    + destruct (start_recording_gui E w Hp) as [->|(out & [->|[[p ->]|[->| ->]]])];
        cbn; trivial; discriminate.
  - destruct (proc (gui w)) as [p|] eqn:Hp.
    + destruct (toggle_pause_gui E w p Hp) as [->|[->| ->]]; [exact H| |];
        unfold shown_toggled; destruct (paused (gui w)); exact H.
    + now rewrite (toggle_pause_idle E w Hp).
  - now apply stop_recording_keeps_output_file.
  - destruct (on_quit_gui E w) as [->|(w' & Hw' & ->)]; [exact H|].
    apply stop_recording_keeps_output_file. unfold has_output_file. now rewrite Hw'.
  - unfold browse_dir. destruct (String.eqb _ _); exact H.
  - exact H.
Qed.

(** A start that ends at the title dialog leaves the output path alone. *)
Lemma start_recording_no_title E w :
  proc (gui w) = None -> falsy (askstring E) = true ->
  output_file (gui (start_recording E w).1) = output_file (gui w) /\
  proc (gui (start_recording E w).1) = None /\
  new_events w (start_recording E w).1 =
    [EDialog ShowError "Missing" "Please enter a video title."].
Proof.
  intros Hp Ht. rewrite (start_recording_idle E w Hp). rewrite Ht.
  unfold new_events. cbn. rewrite drop_app_length. auto.
Qed.

(** ** The final path *)

(** For a raw path whose only [.mp4] is its extension, the final path is the
    raw path with [_final] before the extension. *)
Lemma final_path_suffix stem :
  no_occurrence_inside ".mp4" stem ".mp4" = true ->
  final_path (stem +:+ ".mp4") = stem +:+ "_final.mp4".
Proof.
  unfold final_path, Py.replace.
  induction stem as [|c stem IH]; intros H; [reflexivity|].
  cbn [no_occurrence_inside] in H. apply andb_true_iff in H as [H1 H2].
  apply negb_true_iff in H1.
  change (String c stem +:+ ".mp4") with (String c (stem +:+ ".mp4")) in *.
  cbn [Py.replace_from]. rewrite H1. cbn [String.append]. f_equal. now apply IH.
Qed.

Example final_path_demo :
  final_path demo_raw = "/home/u/Videos/Record/recording_2024-01-01_00-00-00_final.mp4" /\
  final_path demo_raw = suffixed_before_extension demo_raw.
Proof. vm_compute. split; reflexivity. Qed.

(** ** The files of [stop_recording] *)

Lemma os_remove_ok E path w w' :
  os_remove E path w = (w', Ok tt) -> files w' = delete path (files w).
Proof.
  unfold os_remove, bind, emit, raise, set_files.
  destruct (files w !! path); [|discriminate].
  destruct (remove_exn E path); [discriminate|].
  intros H. inversion H. reflexivity.
Qed.

Lemma bind_ok {A B} (m : M A) (k : A -> M B) w w' b :
  bind m k w = (w', Ok b) -> exists w1 a, m w = (w1, Ok a) /\ k a w1 = (w', Ok b).
Proof.
  unfold bind. destruct (m w) as [w1 [a|e]]; [eauto|discriminate].
Qed.

(** When the removals all succeed the two transient files are gone. *)
Lemma cleanup_ok E out final w w' :
  cleanup E out final w = (w', Ok tt) ->
  files w' = delete out (delete concat_list (delete splash_file (files w))) /\
  output_file (gui w') = Some final.
Proof.
  unfold cleanup. intros H.
  apply bind_ok in H as (w1 & [] & H1 & H).
  apply bind_ok in H as (w2 & [] & H2 & H).
  apply bind_ok in H as (w3 & [] & H3 & H).
  apply os_remove_ok in H1, H2, H3. inversion H. cbn.
  now rewrite H3, H2, H1.
Qed.

(** The report: the status line, the printed line and then the log line. *)
Lemma report_eq E final w :
  report E final w =
  let saved := bool_decide (is_Some (files w !! final)) in
  log_event E
    (if saved then "Success: Recording saved: " +:+ final
     else "Failed: final video not created")
    {| gui := set_status (if saved then "Saved: " +:+ final
                          else "Error: file not saved") (gui w);
       files := files w;
       log := log w;
       events := events w ++
         [EPrint (if saved then "✅ Recording saved: " +:+ final
                  else "❌ Error: final video not created")] |}.
Proof.
  unfold report, bind, os_path_exists.
  destruct (bool_decide _); reflexivity.
Qed.

Lemma report_files E final w : files (report E final w).1 = files w.
Proof.
  rewrite report_eq. cbv zeta. rewrite log_event_eq. cbn [fst].
  destruct (log_exn E _); reflexivity.
Qed.

Lemma report_output_file E final w :
  output_file (gui (report E final w).1) = output_file (gui w).
Proof.
  rewrite report_eq. cbv zeta. rewrite log_event_eq. cbn [fst].
  destruct (log_exn E _); reflexivity.
Qed.

(** The postprocessing sequence, when it ends without an exception: the
    concat manifest was written with the splash clip first and the raw
    recording second, the three files were removed, and the output path is
    the final path. *)
Lemma postprocess_ok E w w' :
  postprocess E w = (w', Ok tt) ->
  exists out,
    output_file (gui w) = Some out /\
    output_file (gui w') = Some (final_path out) /\
    files w' !! splash_file = None /\
    files w' !! concat_list = None /\
    files w' !! out = None /\
    exists wm, make_final E (gui w) out (final_path out) w = (wm, Ok tt).
Proof.
  unfold postprocess. unfold bind at 1, get_gui.
  destruct (output_file (gui w)) as [out|]; [|discriminate].
  unfold bind at 1, ret. intros H.
  apply bind_ok in H as (w1 & [] & Hm & H).
  apply bind_ok in H as (w2 & [] & Hc & H).
  apply cleanup_ok in Hc as [Hf Ho].
  assert (Hw' : w' = (report E (final_path out) w2).1) by now rewrite H.
  exists out. rewrite Hw', report_files, report_output_file, Hf.
  split; [reflexivity|]. split; [exact Ho|].
  rewrite !lookup_delete_None. repeat split; eauto.
Qed.

(** The handler and the [finally] block touch no file: the files
    [stop_recording] returns with are those the [try] block ends with. *)
Lemma stop_recording_files E w p :
  proc (gui w) = Some p ->
  files (stop_recording E w).1 = files (stop_body E p (stop_begin w).1).1.
Proof.
  intros Hp. rewrite (stop_recording_eq E w p Hp). cbn [fst with_gui files].
  unfold try_except. destruct (stop_body E p (stop_begin w).1) as [w1 [[]|e]];
    [reflexivity|]. cbn [Exception fst]. apply stop_handler_files.
Qed.

Lemma stop_body_ok E p w w' :
  stop_body E p w = (w', Ok tt) -> exists w2, postprocess E w2 = (w', Ok tt).
Proof.
  rewrite stop_body_eq. cbv zeta.
  destruct (request_result E p); [|discriminate].
  destruct (wait_result E); [|discriminate]. eauto.
Qed.

(** ** The claims on the session operations *)

(** C1: a call of [stop_recording] made while a child handle exists ends
    with the handle cleared and the pause flag cleared, whatever the outside
    world answered: whichever of the stop request, the splash step, the
    concat step, the removals and the log writes raised.  It returns, unless
    the log write of its [except] block raised: then it raises that
    exception, after its [finally] block has cleared handle and flag. *)
Theorem C1_stop_clears_handle E w p :
  proc (gui w) = Some p ->
  proc (gui (stop_recording E w).1) = None /\
  paused (gui (stop_recording E w).1) = false /\
  ((stop_recording E w).2 = Ok tt \/
   exists e0 e,
     log_exn E ("Failed during stop: " +:+ str_of_exn e0) = Some e /\
     (stop_recording E w).2 = Raise e).
Proof.
  intros Hp. rewrite (stop_recording_eq E w p Hp).
  split; [reflexivity|]. split; [reflexivity|].
  cbn [snd]. rewrite stop_try_result.
  destruct (stop_body E p (stop_begin w).1).2 as [[]|e0]; [now left|].
  unfold log_result.
  destruct (log_exn E ("Failed during stop: " +:+ str_of_exn e0)) as [e|] eqn:Hl;
    [right; eauto|now left].
Qed.

(** C7: [start_recording] called while a child handle exists shows the
    "Already running" warning and changes nothing: the recorder's fields, the
    files and the log are those before the call. *)
Theorem C7_start_while_active E w p :
  proc (gui w) = Some p ->
  start_recording E w =
  ({| gui := gui w; files := files w; log := log w;
      events := events w ++
        [EDialog ShowWarning "Already running" "Recording is already in progress."] |},
   Ok tt).
Proof. apply start_recording_busy. Qed.

(** C10: without a child handle, [stop_recording] and [toggle_pause] return at
    once and leave the whole world as it is: no field of the recorder, no
    file and no log line changes, and nothing is done to the outside. *)
Theorem C10_no_child_no_effect E w :
  proc (gui w) = None ->
  stop_recording E w = (w, Ok tt) /\ toggle_pause E w = (w, Ok tt).
Proof.
  intros Hp. unfold stop_recording, toggle_pause, bind, get_gui.
  rewrite Hp. split; reflexivity.
Qed.



Lemma demo_running_reachable : reachable demo_running.
Proof.
  exact (reach_outside _ _
           (reach_step fair_env Start _ (reach_init 1920 1080 "/home/u" ∅ []))).
Qed.

Lemma C1_stop_clears_handle_witness :
  proc (gui (stop_recording fair_env demo_running).1) = None /\
  paused (gui (stop_recording fair_env demo_running).1) = false /\
  ((stop_recording fair_env demo_running).2 = Ok tt \/
   exists e0 e,
     log_exn fair_env ("Failed during stop: " +:+ str_of_exn e0) = Some e /\
     (stop_recording fair_env demo_running).2 = Raise e).
Proof.
  apply (C1_stop_clears_handle fair_env demo_running
           demo_proc).
  vm_compute. reflexivity.
Defined.

Lemma C7_start_while_active_witness :
  start_recording fair_env demo_running =
  ({| gui := gui demo_running; files := files demo_running; log := log demo_running;
      events := events demo_running ++
        [EDialog ShowWarning "Already running" "Recording is already in progress."] |},
   Ok tt).
Proof.
  apply (C7_start_while_active fair_env demo_running
           demo_proc).
  vm_compute. reflexivity.
Defined.

Lemma C10_no_child_no_effect_witness :
  stop_recording fair_env demo_init = (demo_init, Ok tt) /\
  toggle_pause fair_env demo_init = (demo_init, Ok tt).
Proof. apply (C10_no_child_no_effect fair_env demo_init). reflexivity. Defined.

(** C9, as amended: from a world with a child that is not suspended and is
    shown as recording (status line and pause button), when the two signals
    are delivered and the two log lines are written, [toggle_pause] suspends
    the child and a second [toggle_pause] resumes it, and after the second
    the recorder is exactly as it was before the first: handle, output path,
    title, pause flag, entries, status line and buttons; the files are
    untouched.  (The log and the trace have grown by the two entries.) *)
Theorem C9_pause_resume_identity E1 E2 w p :
  proc (gui w) = Some p -> paused (gui w) = false ->
  status (gui w) = status_recording -> btn_pause_text (gui w) = "Pause" ->
  signal_exn E1 SIGSTOP = None -> signal_exn E2 SIGCONT = None ->
  log_exn E1 "Recording paused" = None -> log_exn E2 "Recording resumed" = None ->
  let w1 := (toggle_pause E1 w).1 in
  let w2 := (toggle_pause E2 w1).1 in
  (proc (gui w1) = Some p /\ paused (gui w1) = true) /\
  (proc (gui w2) = Some p /\ paused (gui w2) = false) /\
  gui w2 = gui w /\ files w2 = files w /\
  log w2 = log w ++ ["Recording paused"; "Recording resumed"] /\
  events w2 = events w ++ [ESignal SIGSTOP true; ESignal SIGCONT true].
Proof.
  intros Hp Hpa Hst Htx H1 H2 L1 L2 w1 w2.
  assert (Hw1 : w1 = {| gui := set_paused true
                          (set_btn_pause_text "Resume" (set_status "Paused" (gui w)));
                        files := files w;
                        log := log w ++ ["Recording paused"];
                        events := events w ++ [ESignal SIGSTOP true] |}).
  { unfold w1. rewrite (toggle_pause_running E1 w p Hp Hpa), H1. cbv zeta.
    rewrite L1. reflexivity. }
  assert (Hw2 : w2 = {| gui := set_paused false
                          (set_btn_pause_text "Pause" (set_status status_recording (gui w1)));
                        files := files w1;
                        log := log w1 ++ ["Recording resumed"];
                        events := events w1 ++ [ESignal SIGCONT true] |}).
  { unfold w2. rewrite (toggle_pause_paused E2 w1 p), H2; cbv zeta;
      [rewrite L2; reflexivity| |];
      rewrite Hw1; cbn; [exact Hp|reflexivity]. }
  rewrite Hw2, Hw1. cbn. rewrite <- !app_assoc. cbn.
  repeat split; try assumption.
  revert Hpa Hst Htx. destruct (gui w); cbn. intros -> -> ->. reflexivity.
Qed.

Lemma C9_pause_resume_identity_witness :
  let w := demo_running in
  let w1 := (toggle_pause fair_env w).1 in
  let w2 := (toggle_pause fair_env w1).1 in
  (proc (gui w1) = Some demo_proc /\ paused (gui w1) = true) /\
  (proc (gui w2) = Some demo_proc /\ paused (gui w2) = false) /\
  gui w2 = gui w /\ files w2 = files w /\
  log w2 = log w ++ ["Recording paused"; "Recording resumed"] /\
  events w2 = events w ++ [ESignal SIGSTOP true; ESignal SIGCONT true].
Proof.
  apply (C9_pause_resume_identity fair_env fair_env demo_running
           demo_proc).
  - vm_compute. reflexivity.
  - reflexivity.
  - reflexivity.
  - reflexivity.
  - reflexivity.
  - reflexivity.
  - reflexivity.
  - reflexivity.
Defined.

(** C9, as stated, fails when a log write fails.  The pause flag is set
    after the log line is written: when the suspend signal is delivered and
    the log write raises, [toggle_pause] leaves a suspended child with the
    status line "Paused", the button "Resume" and the pause flag off.  The
    next call suspends again instead of resuming, so that the recorder after
    the two calls is not the one before them.  And from the world the first
    call was left in, which is reachable and has the flag off, two calls that
    meet no failure at all do not give the recorder back either: they end
    with the status line of a recording. *)
Lemma C9_log_failure_breaks_identity :
  let E1 := with_log_exn fair_env disk_full in
  let w1 := (toggle_pause E1 demo_running).1 in
  let w2 := (toggle_pause fair_env w1).1 in
  let w3 := (toggle_pause fair_env w2).1 in
  (reachable demo_running /\
   proc (gui demo_running) = Some demo_proc /\ paused (gui demo_running) = false /\
   signal_exn E1 SIGSTOP = None /\ signal_exn fair_env SIGCONT = None) /\
  (new_events demo_running w1 =
     [ESignal SIGSTOP true;
      EDialog ShowError "Pause Error" "[Errno 28] No space left on device"] /\
   paused (gui w1) = false /\ status (gui w1) = "Paused" /\
   btn_pause_text (gui w1) = "Resume") /\
  (new_events w1 w2 = [ESignal SIGSTOP true] /\
   paused (gui w2) = true /\ gui w2 <> gui demo_running) /\
  (reachable w1 /\ proc (gui w1) = Some demo_proc /\
   new_events w2 w3 = [ESignal SIGCONT true] /\
   status (gui w3) = status_recording /\ gui w3 <> gui w1).
Proof.
  intros E1 w1 w2 w3.
  split; [repeat split; exact demo_running_reachable|].
  split; [vm_compute; repeat split|].
  split; [vm_compute; repeat split; discriminate|].
  split; [exact (reach_step E1 TogglePause _ demo_running_reachable)|].
  vm_compute. repeat split. discriminate.
Qed.


(** C8, as amended: the output path is unset when the program starts; no
    operation ever unsets it ([stop_recording] leaves the final or the raw
    path in it); it is set whenever a child handle exists; and a
    [start_recording] that is rejected as busy or ends at the title dialog
    leaves it as it was. *)
Theorem C8_output_file E o w :
  (forall sw sh home fs lg, output_file (gui (init_world sw sh home fs lg)) = None) /\
  (output_file (gui w) <> None -> output_file (gui (run_op E o w).1) <> None) /\
  (reachable w -> proc (gui w) <> None -> output_file (gui w) <> None) /\
  (proc (gui w) <> None \/ falsy (askstring E) = true ->
   output_file (gui (start_recording E w).1) = output_file (gui w)).
Proof.
  split; [reflexivity|]. split; [apply run_op_keeps_output_file|]. split.
  - intros Hr Hp. pose proof (reachable_display w Hr) as Hc.
    unfold display_consistent in Hc. destruct (proc (gui w)); [tauto|congruence].
  - intros H. destruct (proc (gui w)) as [p|] eqn:Hp.
    + now rewrite (start_recording_busy E w p Hp).
    + destruct H as [H|H]; [congruence|].
      apply (start_recording_no_title E w Hp H).
Qed.

Lemma C8_output_file_witness :
  output_file (gui (run_op fair_env Stop demo_running).1) <> None /\
  output_file (gui demo_running) <> None /\
  output_file (gui (start_recording fair_env demo_running).1) =
    output_file (gui demo_running).
Proof.
  destruct (C8_output_file fair_env Stop demo_running) as (_ & H2 & H3 & H4).
  split; [apply H2; vm_compute; discriminate|].
  split; [apply H3; [exact demo_running_reachable|vm_compute; discriminate]|].
  apply H4. left. vm_compute. discriminate.
Defined.

(** C8, as stated, fails twice.  A [start_recording] that stops because the
    backend tool is missing has already set the output path, without any
    child launched; and after a completed [stop_recording], with no start
    since, the output path is still set. *)
Lemma C8_output_file_set_without_session :
  let E := with_which fair_env (fun _ => false) in
  let w' := (start_recording E demo_init).1 in
  (output_file (gui demo_init) = None /\
   proc (gui w') = None /\
   existsb is_spawn (events w') = false /\
   output_file (gui w') = Some demo_raw) /\
  (proc (gui (stop_recording fair_env demo_running).1) = None /\
   output_file (gui (stop_recording fair_env demo_running).1) =
     Some "/home/u/Videos/Record/recording_2024-01-01_00-00-00_final.mp4").
Proof. vm_compute. repeat split. Qed.

(** C2, as amended.  In every execution of [stop_recording] with a child, no
    step of the postprocessing sequence comes before a [wait] that collected
    the child's exit status.  When no signal delivery raises, what follows
    the request to stop is the wait bounded by 20 seconds and, when the child
    has not exited within it, the kill and the unbounded wait; the exit
    status is collected by the last of these, before anything else is done. *)
Theorem C2_wait_kill_reap E w p :
  proc (gui w) = Some p ->
  post_after_reap false (new_events w (stop_recording E w).1) = true /\
  ((forall s, signal_exn E s = None) ->
   exists request post,
     new_events w (stop_recording E w).1 =
       request ++
       (if exits_within E 20 then [EWait (Some 20) true]
        else [EWait (Some 20) false; ESignal SIGKILL true; EWait None true]) ++
       post /\
     forallb is_request request = true).
Proof.
  intros Hp. destruct (stop_recording_events E w p Hp) as (tail & Hev & Htail).
  unfold new_events. rewrite Hev, drop_app_length. split.
  - rewrite (no_post_after_reap _ _ (request_events_no_post E p)).
    destruct (request_result E p) as [[]|e].
    + destruct Htail as (post & -> & Hpost).
      rewrite (no_post_after_reap _ _ (wait_events_no_post E)).
      rewrite wait_events_reap.
      destruct (wait_result E) as [[]|e'].
      * rewrite orb_true_r. apply post_after_reap_true.
      * subst post. reflexivity.
    + subst tail. reflexivity.
  - intros Hsig. exists (request_events E p).
    assert (Hreq : request_result E p = Ok tt).
    { unfold request_result. rewrite Hsig.
      destruct (is_wayland E), (p_stdin p), (stdin_exn E); reflexivity. }
    rewrite Hreq in Htail. destruct Htail as (post & -> & _).
    exists post. split; [|apply request_events_are_requests].
    unfold wait_events. now rewrite Hsig.
Qed.

Lemma C2_wait_kill_reap_witness :
  post_after_reap false
    (new_events demo_running (stop_recording fair_env demo_running).1) = true /\
  exists request post,
    new_events demo_running (stop_recording fair_env demo_running).1 =
      request ++
      (if exits_within fair_env 20 then [EWait (Some 20) true]
       else [EWait (Some 20) false; ESignal SIGKILL true; EWait None true]) ++
      post /\
    forallb is_request request = true.
Proof.
  destruct (C2_wait_kill_reap fair_env demo_running demo_proc) as [H1 H2].
  - vm_compute. reflexivity.
  - split; [exact H1|]. apply H2. reflexivity.
Defined.

(** C2, as stated, fails when a signal cannot be delivered.  On Wayland, when
    the interrupt signal raises, [stop_recording] returns with the handle
    cleared and the child never waited for; on X11, when the child ignores
    the quit command and the kill raises, likewise. *)
Lemma C2_child_left_unreaped :
  let E1 := with_signal_exn (with_session fair_env (Some "wayland")) not_permitted in
  let E2 := with_signal_exn (with_exits_within fair_env (fun _ => false)) not_permitted in
  (proc (gui (stop_recording E1 demo_running).1) = None /\
   existsb is_reap (events (stop_recording E1 demo_running).1) = false /\
   new_events demo_running (stop_recording E1 demo_running).1 =
     [ESignal SIGINT false;
      EPrint "❌ Stop error: [Errno 1] Operation not permitted"]) /\
  (proc (gui (stop_recording E2 demo_running).1) = None /\
   existsb is_reap (events (stop_recording E2 demo_running).1) = false /\
   new_events demo_running (stop_recording E2 demo_running).1 =
     [EStdin ("q" +:+ NL) true; EWait (Some 20) false; ESignal SIGKILL false;
      EPrint "❌ Stop error: [Errno 1] Operation not permitted"]).
Proof. vm_compute. repeat split. Qed.


(** C6, as amended: in every execution of [stop_recording] whose [try] block
    ends without an exception, the concat manifest and the splash file are
    gone when it returns. *)
Theorem C6_transient_files E w p :
  proc (gui w) = Some p ->
  (stop_body E p (stop_begin w).1).2 = Ok tt ->
  files (stop_recording E w).1 !! splash_file = None /\
  files (stop_recording E w).1 !! concat_list = None.
Proof.
  intros Hp Hok. rewrite (stop_recording_files E w p Hp).
  destruct (stop_body E p (stop_begin w).1) as [w1 r] eqn:Hb.
  cbn in Hok. subst r.
  apply stop_body_ok in Hb as (w2 & Hpost).
  apply postprocess_ok in Hpost as (out & _ & _ & H1 & H2 & _).
  cbn. tauto.
Qed.

Lemma C6_transient_files_witness :
  files (stop_recording fair_env demo_running).1 !! splash_file = None /\
  files (stop_recording fair_env demo_running).1 !! concat_list = None.
Proof.
  apply (C6_transient_files fair_env demo_running demo_proc);
    vm_compute; reflexivity.
Defined.

(** C6, as stated, fails: when the concat command exits with a non-zero
    status, [stop_recording] returns with the splash file and the manifest it
    created still there. *)
Lemma C6_transient_files_left_on_failure :
  let E := with_run_tool fair_env concat_fails in
  let w' := (stop_recording E demo_running).1 in
  (files demo_running !! splash_file = None /\
   files demo_running !! concat_list = None) /\
  proc (gui w') = None /\
  files w' !! splash_file = Some "media" /\
  files w' !! concat_list = Some (concat_manifest demo_raw).
Proof. vm_compute. repeat split. Qed.

(** C5: the code departs from the claim on a raw path that has [.mp4] in a
    directory name.  On this run every step of the postprocessing sequence
    succeeds; the manifest lists the splash clip and then the raw recording,
    the three files are removed and the output path is updated, but the
    final path has [_final] put before every [.mp4], not only before the
    extension. *)
Theorem C5_final_path_every_occurrence :
  let w' := (stop_recording fair_env odd_running).1 in
  output_file (gui odd_running) = Some odd_raw /\
  new_events odd_running w' =
    [EStdin ("q" +:+ NL) true; EWait (Some 20) true;
     ERun ["ffmpeg"; "-y"; "-f"; "lavfi"; "-i"; "color=c=black:s=1920x1080:d=5";
           "-f"; "lavfi"; "-i"; "anullsrc=r=44100:cl=stereo"; "-vf";
           "drawtext=text='Demo':fontcolor=white:fontsize=48:x=(w-text_w)/2:y=(h-text_h)/2";
           "-c:v"; "libx264"; "-c:a"; "aac"; "-shortest"; "splash.mp4"] true;
     EWrite "concat_list.txt"
       ("file 'splash.mp4'" +:+ NL +:+ "file '" +:+ odd_raw +:+ "'" +:+ NL);
     ERun ["ffmpeg"; "-y"; "-f"; "concat"; "-safe"; "0"; "-i"; "concat_list.txt";
           "-c"; "copy";
           "/tmp/a_final.mp4.d/recording_2024-01-01_00-00-00_final.mp4"] true;
     ERemove "splash.mp4" true; ERemove "concat_list.txt" true;
     ERemove odd_raw true;
     EPrint "✅ Recording saved: /tmp/a_final.mp4.d/recording_2024-01-01_00-00-00_final.mp4"] /\
  output_file (gui w') =
    Some "/tmp/a_final.mp4.d/recording_2024-01-01_00-00-00_final.mp4" /\
  suffixed_before_extension odd_raw =
    "/tmp/a.mp4.d/recording_2024-01-01_00-00-00_final.mp4" /\
  output_file (gui w') <> Some (suffixed_before_extension odd_raw).
Proof. vm_compute. repeat split. discriminate. Qed.


(** ** Further properties: the argument lists *)

(** X1: [build_cmd_x11] and [shlex.split].  For an output path without double
    quote and backslash (blanks allowed) and for an fps value, a frame size,
    a display, an audio and a webcam device that are non-empty words, the
    command splits into exactly these 43 arguments: the output path is one
    argument, the last, and the overlay filter is one argument. *)
Theorem X1_x11_argv out fps size display audio webcam :
  dq_safe out -> bare_word fps -> bare_word size ->
  bare_word display -> bare_word audio -> bare_word webcam ->
  Py.shlex_split (build_cmd_x11 out fps size display audio webcam) =
  Some ["ffmpeg"; "-y"; "-video_size"; size; "-framerate"; fps;
        "-f"; "x11grab"; "-i"; display;
        "-f"; "v4l2"; "-video_size"; "300x300"; "-i"; webcam;
        "-f"; "pulse"; "-thread_queue_size"; "512"; "-ac"; "2"; "-i"; audio;
        "-filter_complex"; "[0:v][1:v] overlay=(main_w-overlay_w-20):20[v]";
        "-map"; "[v]"; "-map"; "2:a";
        "-c:v"; "libx264"; "-preset"; "veryfast"; "-pix_fmt"; "yuv420p";
        "-crf"; "23"; "-c:a"; "aac"; "-b:a"; "160k"; out].
Proof. apply x11_args. Qed.

Lemma X1_x11_argv_witness :
  Py.shlex_split
    (build_cmd_x11 "/home/u/My Videos/r.mp4" "30" "1920x1080" ":0.0" "default"
       "/dev/video0") =
  Some ["ffmpeg"; "-y"; "-video_size"; "1920x1080"; "-framerate"; "30";
        "-f"; "x11grab"; "-i"; ":0.0";
        "-f"; "v4l2"; "-video_size"; "300x300"; "-i"; "/dev/video0";
        "-f"; "pulse"; "-thread_queue_size"; "512"; "-ac"; "2"; "-i"; "default";
        "-filter_complex"; "[0:v][1:v] overlay=(main_w-overlay_w-20):20[v]";
        "-map"; "[v]"; "-map"; "2:a";
        "-c:v"; "libx264"; "-preset"; "veryfast"; "-pix_fmt"; "yuv420p";
        "-crf"; "23"; "-c:a"; "aac"; "-b:a"; "160k"; "/home/u/My Videos/r.mp4"].
Proof.
  apply (X1_x11_argv "/home/u/My Videos/r.mp4" "30" "1920x1080" ":0.0" "default"
           "/dev/video0");
    first [ apply bare_word_intro; vm_compute; reflexivity | vm_compute; reflexivity ].
Defined.

(** X2: [build_cmd_wayland] and [shlex.split].  Under the same conditions the
    Wayland command splits into exactly eight arguments: the output path is
    one argument and the audio device is glued to [--audio=]. *)
Theorem X2_wayland_argv out fps size audio :
  dq_safe out -> bare_word fps -> bare_word audio ->
  Py.shlex_split (build_cmd_wayland out fps size audio) =
  Some ["wf-recorder"; "-f"; out; "--audio=" +:+ audio;
        "--framerate"; fps; "--pixel-format"; "yuv420p"].
Proof. apply wayland_args. Qed.

Lemma X2_wayland_argv_witness :
  Py.shlex_split (build_cmd_wayland "/home/u/My Videos/r.mp4" "30" "1920x1080" "default") =
  Some ["wf-recorder"; "-f"; "/home/u/My Videos/r.mp4"; "--audio=" +:+ "default";
        "--framerate"; "30"; "--pixel-format"; "yuv420p"].
Proof.
  apply (X2_wayland_argv "/home/u/My Videos/r.mp4" "30" "1920x1080" "default");
    first [ apply bare_word_intro; vm_compute; reflexivity | vm_compute; reflexivity ].
Defined.

(** X3: the concat command of [stop_recording].  For a final path without
    double quote and backslash it splits into exactly eleven arguments, the
    final path being the last. *)
Theorem X3_concat_argv final :
  dq_safe final ->
  Py.shlex_split (cmd_concat final) =
  Some ["ffmpeg"; "-y"; "-f"; "concat"; "-safe"; "0"; "-i"; "concat_list.txt";
        "-c"; "copy"; final].
Proof. apply concat_args. Qed.

Lemma X3_concat_argv_witness :
  Py.shlex_split (cmd_concat "/home/u/My Videos/r_final.mp4") =
  Some ["ffmpeg"; "-y"; "-f"; "concat"; "-safe"; "0"; "-i"; "concat_list.txt";
        "-c"; "copy"; "/home/u/My Videos/r_final.mp4"].
Proof.
  apply (X3_concat_argv "/home/u/My Videos/r_final.mp4"). vm_compute. reflexivity.
Defined.

(** ** Further properties: [start_recording] *)

(** [start_recording] once the title is given and the directory made. *)
Lemma start_recording_ready E w title :
  proc (gui w) = None ->
  askstring E = Some title -> title <> EmptyString ->
  let dir := Py.strip (output_dir (gui w)) in
  let out := Py.path_join dir ("recording_" +:+ now E +:+ ".mp4") in
  makedirs_exn E dir = None ->
  start_recording E w =
  select_backend E out (Py.strip (fps (gui w))) (Py.strip (size_str (gui w)))
    {| gui := titled (Some title) out (gui w); files := files w; log := log w;
       events := events w ++ [EMakedirs dir] |}.
Proof.
  intros Hp Ha Hne dir out Hm. rewrite (start_recording_idle E w Hp).
  rewrite Ha. cbn [falsy].
  destruct (String.eqb_spec title EmptyString) as [|_]; [congruence|].
  fold dir. rewrite Hm. reflexivity.
Qed.

Lemma select_backend_eq E out f sz w :
  select_backend E out f sz w =
  if which E (backend_tool E) then launch E out (capture_cmd E out f sz) w
  else
    if is_wayland E then
      (messagebox ShowError "wf-recorder not found"
         ("You are on Wayland and 'wf-recorder' is not installed." +:+ NL +:+ NL +:+
          "Install it: sudo apt install wf-recorder") ;;
       log_event E "Failed: wf-recorder not found") w
    else
      (messagebox ShowError "FFmpeg not found"
         ("FFmpeg is required on X11." +:+ NL +:+ NL +:+
          "Install it: sudo apt install ffmpeg") ;;
       log_event E "Failed: FFmpeg not found") w.
Proof.
  unfold select_backend, backend_tool, capture_cmd.
  destruct (is_wayland E); destruct (which E _); reflexivity.
Qed.

Lemma launch_started E out cmd w args :
  Py.shlex_split cmd = Some args -> popen_exn E args = None ->
  log_exn E ("Started recording: " +:+ out) = None ->
  launch E out cmd w =
  ({| gui := set_paused false
               (set_proc (Some {| p_args := args; p_stdin := true |})
                  (set_buttons Disabled Normal Normal
                     (set_status status_recording (gui w))));
      files := files w;
      log := log w ++ ["Started recording: " +:+ out];
      events := events w ++ [ESpawn args] |}, Ok tt).
Proof.
  intros Hs Hpo Hl.
  unfold launch, try_except, bind, update, shlex_split, subprocess_Popen.
  cbn [with_gui gui files log events]. rewrite Hs. unfold ret. rewrite Hpo.
  cbn -[log_event]. rewrite (log_event_ok _ _ _ Hl). reflexivity.
Qed.

Lemma launch_failed E out cmd w e :
  launch_exn E cmd = Some e ->
  log_exn E ("Failed to start recording: " +:+ str_of_exn e) = None ->
  launch E out cmd w =
  ({| gui := set_buttons Normal Disabled Disabled
               (set_proc None
                  (set_buttons Disabled Normal Normal
                     (set_status status_recording (gui w))));
      files := files w;
      log := log w ++ ["Failed to start recording: " +:+ str_of_exn e];
      events := events w ++
        [EDialog ShowError "Error starting recorder" (str_of_exn e)] |}, Ok tt).
Proof.
  unfold launch_exn. intros He Hl.
  unfold launch, try_except, bind, update, shlex_split, subprocess_Popen.
  cbn [with_gui gui files log events].
  destruct (Py.shlex_split cmd) as [args|].
  - unfold ret. rewrite He. cbn -[log_event]. rewrite (log_event_ok _ _ _ Hl).
    reflexivity.
  - inversion He; subst e. cbn -[log_event]. rewrite (log_event_ok _ _ _ Hl).
    reflexivity.
Qed.

(** X4: a start that succeeds.  Without a child, with a non-empty title, the
    directory made, the backend's tool found, the backend's command line
    split into [args] and started, and the log line written,
    [start_recording] returns with the child handle for [args], the pause
    flag off, the output path [<directory>/recording_<time stamp>.mp4] built
    from the stripped entry, the status line and the buttons of a running
    session, one log line and no file touched. *)
Theorem X4_start_launches E w title args :
  proc (gui w) = None ->
  askstring E = Some title -> title <> EmptyString ->
  let dir := Py.strip (output_dir (gui w)) in
  let out := Py.path_join dir ("recording_" +:+ now E +:+ ".mp4") in
  let cmd := capture_cmd E out (Py.strip (fps (gui w))) (Py.strip (size_str (gui w))) in
  makedirs_exn E dir = None ->
  which E (backend_tool E) = true ->
  Py.shlex_split cmd = Some args -> popen_exn E args = None ->
  log_exn E ("Started recording: " +:+ out) = None ->
  start_recording E w =
  ({| gui := set_paused false
               (set_proc (Some {| p_args := args; p_stdin := true |})
                  (set_buttons Disabled Normal Normal
                     (set_status status_recording
                        (titled (Some title) out (gui w)))));
      files := files w;
      log := log w ++ ["Started recording: " +:+ out];
      events := events w ++ [EMakedirs dir; ESpawn args] |}, Ok tt).
Proof.
  intros Hp Ha Hne dir out cmd Hm Hw Hs Hpo Hl.
  rewrite (start_recording_ready E w title Hp Ha Hne Hm).
  rewrite select_backend_eq, Hw.
  rewrite (launch_started E _ _ _ args Hs Hpo Hl).
  cbn [gui files log events]. now rewrite <- app_assoc.
Qed.

Lemma X4_start_launches_witness :
  start_recording wayland_env demo_init =
  ({| gui := set_paused false
               (set_proc
                  (Some {| p_args :=
                             ["wf-recorder"; "-f"; demo_raw; "--audio=default";
                              "--framerate"; "30"; "--pixel-format"; "yuv420p"];
                           p_stdin := true |})
                  (set_buttons Disabled Normal Normal
                     (set_status status_recording
                        (titled (Some "Demo") demo_raw (gui demo_init)))));
      files := files demo_init;
      log := log demo_init ++ ["Started recording: " +:+ demo_raw];
      events := events demo_init ++
        [EMakedirs "/home/u/Videos/Record";
         ESpawn ["wf-recorder"; "-f"; demo_raw; "--audio=default";
                 "--framerate"; "30"; "--pixel-format"; "yuv420p"]] |}, Ok tt).
Proof.
  apply (X4_start_launches wayland_env demo_init "Demo"
           ["wf-recorder"; "-f"; demo_raw; "--audio=default";
            "--framerate"; "30"; "--pixel-format"; "yuv420p"]);
    first [ discriminate | vm_compute; reflexivity ].
Defined.

(** X5: a start without the backend's tool.  When [wf-recorder] (on Wayland)
    or [ffmpeg] (elsewhere) is not found and the log line can be written,
    [start_recording] returns with no child and no spawn, one error dialog
    and the log line "Failed: ... not found"; status line, buttons and pause
    flag are as before, and the output path and the title are already the
    new ones. *)
Theorem X5_start_tool_missing E w title :
  proc (gui w) = None ->
  askstring E = Some title -> title <> EmptyString ->
  let dir := Py.strip (output_dir (gui w)) in
  let out := Py.path_join dir ("recording_" +:+ now E +:+ ".mp4") in
  makedirs_exn E dir = None ->
  which E (backend_tool E) = false ->
  log_exn E (if is_wayland E then "Failed: wf-recorder not found"
             else "Failed: FFmpeg not found") = None ->
  start_recording E w =
  ({| gui := titled (Some title) out (gui w);
      files := files w;
      log := log w ++
        [if is_wayland E then "Failed: wf-recorder not found"
         else "Failed: FFmpeg not found"];
      events := events w ++
        [EMakedirs dir;
         if is_wayland E then
           EDialog ShowError "wf-recorder not found"
             ("You are on Wayland and 'wf-recorder' is not installed." +:+ NL +:+ NL +:+
              "Install it: sudo apt install wf-recorder")
         else
           EDialog ShowError "FFmpeg not found"
             ("FFmpeg is required on X11." +:+ NL +:+ NL +:+
              "Install it: sudo apt install ffmpeg")] |}, Ok tt).
Proof.
  intros Hp Ha Hne dir out Hm Hw Hl.
  rewrite (start_recording_ready E w title Hp Ha Hne Hm).
  rewrite select_backend_eq, Hw.
  destruct (is_wayland E); unfold bind, messagebox, emit;
    rewrite (log_event_ok _ _ _ Hl); unfold add_log;
    cbn [gui files log events]; now rewrite <- app_assoc.
Qed.

Lemma X5_start_tool_missing_witness :
  let E := with_which wayland_env (fun _ => false) in
  start_recording E demo_init =
  ({| gui := titled (Some "Demo") demo_raw (gui demo_init);
      files := files demo_init;
      log := log demo_init ++ ["Failed: wf-recorder not found"];
      events := events demo_init ++
        [EMakedirs "/home/u/Videos/Record";
         EDialog ShowError "wf-recorder not found"
           ("You are on Wayland and 'wf-recorder' is not installed." +:+ NL +:+ NL +:+
            "Install it: sudo apt install wf-recorder")] |}, Ok tt).
Proof.
  apply (X5_start_tool_missing (with_which wayland_env (fun _ => false))
           demo_init "Demo");
    first [ discriminate | vm_compute; reflexivity ].
Defined.

(** X6: a start whose launch fails.  When splitting the command line or
    starting the child raises [e] and the log line can be written,
    [start_recording] itself returns: no child, the buttons back to those of
    an idle window, an error dialog and the log line
    "Failed to start recording: e".  The status line is not put back: it
    still reads "Recording…". *)
Theorem X6_start_launch_fails E w title e :
  proc (gui w) = None ->
  askstring E = Some title -> title <> EmptyString ->
  let dir := Py.strip (output_dir (gui w)) in
  let out := Py.path_join dir ("recording_" +:+ now E +:+ ".mp4") in
  let cmd := capture_cmd E out (Py.strip (fps (gui w))) (Py.strip (size_str (gui w))) in
  makedirs_exn E dir = None ->
  which E (backend_tool E) = true ->
  launch_exn E cmd = Some e ->
  log_exn E ("Failed to start recording: " +:+ str_of_exn e) = None ->
  start_recording E w =
  ({| gui := set_buttons Normal Disabled Disabled
               (set_proc None
                  (set_buttons Disabled Normal Normal
                     (set_status status_recording
                        (titled (Some title) out (gui w)))));
      files := files w;
      log := log w ++ ["Failed to start recording: " +:+ str_of_exn e];
      events := events w ++
        [EMakedirs dir;
         EDialog ShowError "Error starting recorder" (str_of_exn e)] |}, Ok tt).
Proof.
  intros Hp Ha Hne dir out cmd Hm Hw He Hl.
  rewrite (start_recording_ready E w title Hp Ha Hne Hm).
  rewrite select_backend_eq, Hw.
  rewrite (launch_failed E _ _ _ e He Hl).
  cbn [gui files log events]. now rewrite <- app_assoc.
Qed.

Lemma X6_start_launch_fails_witness :
  let E := with_popen_exn fair_env exec_fails in
  start_recording E demo_init =
  ({| gui := set_buttons Normal Disabled Disabled
               (set_proc None
                  (set_buttons Disabled Normal Normal
                     (set_status status_recording
                        (titled (Some "Demo") demo_raw (gui demo_init)))));
      files := files demo_init;
      log := log demo_init ++
        ["Failed to start recording: " +:+ "[Errno 8] Exec format error"];
      events := events demo_init ++
        [EMakedirs "/home/u/Videos/Record";
         EDialog ShowError "Error starting recorder" "[Errno 8] Exec format error"] |},
   Ok tt).
Proof.
  apply (X6_start_launch_fails (with_popen_exn fair_env exec_fails) demo_init "Demo"
           (OSError "[Errno 8] Exec format error"));
    first [ discriminate | vm_compute; reflexivity ].
Defined.

(** X7: a start without a title.  When the title dialog is cancelled or left
    empty, [start_recording] shows the "Missing" error and returns: no
    directory is made, no child started, nothing logged, no file touched;
    of the recorder only the title changes, which is overwritten with the
    empty answer. *)
Theorem X7_start_without_title E w :
  proc (gui w) = None -> falsy (askstring E) = true ->
  start_recording E w =
  ({| gui := set_title_text (askstring E) (gui w);
      files := files w; log := log w;
      events := events w ++
        [EDialog ShowError "Missing" "Please enter a video title."] |}, Ok tt).
Proof.
  intros Hp Ht. rewrite (start_recording_idle E w Hp). rewrite Ht. reflexivity.
Qed.

Lemma X7_start_without_title_witness :
  start_recording (with_askstring fair_env None) demo_init =
  ({| gui := set_title_text None (gui demo_init);
      files := files demo_init; log := log demo_init;
      events := events demo_init ++
        [EDialog ShowError "Missing" "Please enter a video title."] |}, Ok tt).
Proof.
  apply (X7_start_without_title (with_askstring fair_env None) demo_init);
    reflexivity.
Defined.

(** X8: a start whose output directory cannot be made.  [os.makedirs] is
    called outside the [try] block: when it raises [e], [start_recording]
    raises [e] itself, with no dialog, no log line, no child, and the output
    path as before; the title is already the new one. *)
Theorem X8_start_makedirs_raises E w title e :
  proc (gui w) = None ->
  askstring E = Some title -> title <> EmptyString ->
  makedirs_exn E (Py.strip (output_dir (gui w))) = Some e ->
  start_recording E w =
  ({| gui := set_title_text (Some title) (gui w);
      files := files w; log := log w; events := events w |}, Raise e).
Proof.
  intros Hp Ha Hne Hm. rewrite (start_recording_idle E w Hp).
  rewrite Ha. cbn [falsy].
  destruct (String.eqb_spec title EmptyString) as [|_]; [congruence|].
  rewrite Hm. reflexivity.
Qed.

Lemma X8_start_makedirs_raises_witness :
  let E := with_makedirs_exn fair_env permission_denied in
  start_recording E demo_init =
  ({| gui := set_title_text (Some "Demo") (gui demo_init);
      files := files demo_init; log := log demo_init; events := events demo_init |},
   Raise (OSError ("[Errno 13] Permission denied: '" +:+ "/home/u/Videos/Record" +:+ "'"))).
Proof.
  apply (X8_start_makedirs_raises (with_makedirs_exn fair_env permission_denied)
           demo_init "Demo");
    first [ discriminate | vm_compute; reflexivity ].
Defined.

(** ** Further properties: [toggle_pause] and the invariants *)

(** X9: a pause or a resume whose signal cannot be delivered.  When
    [send_signal] raises [e] and the log line can be written, [toggle_pause]
    returns with the recorder as it was (pause flag, status line and button
    text included), an error dialog and one log line; no file is touched. *)
Theorem X9_toggle_pause_failure E w p e :
  proc (gui w) = Some p ->
  signal_exn E (if paused (gui w) then SIGCONT else SIGSTOP) = Some e ->
  log_exn E ((if paused (gui w) then "Failed to resume recording: "
              else "Failed to pause recording: ") +:+ str_of_exn e) = None ->
  toggle_pause E w =
  ({| gui := gui w; files := files w;
      log := log w ++
        [(if paused (gui w) then "Failed to resume recording: "
          else "Failed to pause recording: ") +:+ str_of_exn e];
      events := events w ++
        [ESignal (if paused (gui w) then SIGCONT else SIGSTOP) false;
         EDialog ShowError (if paused (gui w) then "Resume Error" else "Pause Error")
           (str_of_exn e)] |}, Ok tt).
Proof.
  intros Hp He Hl. destruct (paused (gui w)) eqn:Hpa.
  - rewrite (toggle_pause_paused E w p Hp Hpa), He, report_error_eq. cbv zeta.
    unfold log_result. rewrite Hl. unfold add_log, add_events. cbn.
    now rewrite <- app_assoc.
  - rewrite (toggle_pause_running E w p Hp Hpa), He, report_error_eq. cbv zeta.
    unfold log_result. rewrite Hl. unfold add_log, add_events. cbn.
    now rewrite <- app_assoc.
Qed.

Lemma X9_toggle_pause_failure_witness :
  let E := with_signal_exn fair_env not_permitted in
  toggle_pause E demo_running =
  ({| gui := gui demo_running; files := files demo_running;
      log := log demo_running ++
        ["Failed to pause recording: " +:+ "[Errno 1] Operation not permitted"];
      events := events demo_running ++
        [ESignal SIGSTOP false;
         EDialog ShowError "Pause Error" "[Errno 1] Operation not permitted"] |}, Ok tt).
Proof.
  apply (X9_toggle_pause_failure (with_signal_exn fair_env not_permitted)
           demo_running demo_proc (OSError "[Errno 1] Operation not permitted"));
    vm_compute; reflexivity.
Defined.

(** X10: what the recorder's fields tell.  In every reachable world, without
    a child handle the pause flag is off and the pause button reads "Pause";
    with one, the output path is set, and the status line and the pause
    button read "Paused" and "Resume", or "Recording…" and "Pause".  They
    agree with the pause flag as well ("Paused" exactly when it is on) when
    the program starts and after every operation whose log writes succeed,
    if they did before it. *)
Theorem X10_reachable_consistent E o w :
  (reachable w -> display_consistent (gui w)) /\
  (forall sw sh home fs lg, ui_consistent (gui (init_world sw sh home fs lg))) /\
  (log_writable E -> ui_consistent (gui w) -> ui_consistent (gui (run_op E o w).1)).
Proof.
  split; [apply reachable_display|]. split; [split; reflexivity|].
  apply run_op_consistent.
Qed.

Lemma X10_reachable_consistent_witness :
  display_consistent (gui demo_running) /\
  ui_consistent (gui (run_op fair_env TogglePause demo_running).1).
Proof.
  destruct (X10_reachable_consistent fair_env TogglePause demo_running)
    as (H1 & _ & H3).
  split.
  - apply H1. exact demo_running_reachable.
  - apply H3.
    + intros m. reflexivity.
    + vm_compute. split; [discriminate|split; reflexivity].
Defined.

Lemma start_recording_buttons E w :
  buttons_consistent (gui w) -> buttons_consistent (gui (start_recording E w).1).
Proof.
  destruct (proc (gui w)) as [p|] eqn:Hp.
  - now rewrite (start_recording_busy E w p Hp).
  - intros H. unfold buttons_consistent in H. rewrite Hp in H.
    destruct (start_recording_gui E w Hp) as [->|(out & [->|[[p ->]|[->| ->]]])];
      unfold buttons_consistent; cbn; rewrite ?Hp; auto.
Qed.

Lemma toggle_pause_buttons E w :
  buttons_consistent (gui w) -> buttons_consistent (gui (toggle_pause E w).1).
Proof.
  intros H. destruct (proc (gui w)) as [p|] eqn:Hp.
  - destruct (toggle_pause_gui E w p Hp) as [->|[->| ->]]; [exact H| |];
      unfold buttons_consistent, shown_toggled in *; rewrite Hp in H;
      destruct (paused (gui w)); cbn; now rewrite Hp.
  - now rewrite (toggle_pause_idle E w Hp).
Qed.

Lemma stop_recording_buttons E w :
  buttons_consistent (gui w) -> buttons_consistent (gui (stop_recording E w).1).
Proof.
  intros H. destruct (proc (gui w)) as [p|] eqn:Hp.
  - rewrite (stop_recording_eq E w p Hp). unfold buttons_consistent. cbn. tauto.
  - now rewrite (stop_recording_idle E w Hp).
Qed.

(** X11: the buttons tell the state in every reachable world.  With a child
    handle Start is disabled and Stop and Pause are enabled; without one
    Start is enabled and Stop and Pause are disabled. *)
Theorem X11_reachable_buttons w : reachable w -> buttons_consistent (gui w).
Proof.
  induction 1 as [sw sh home fs lg | E o w _ IH | fs w _ IH].
  - repeat split.
  - destruct o; cbn [run_op].
    + now apply start_recording_buttons.
    + now apply toggle_pause_buttons.
    + now apply stop_recording_buttons.
    + destruct (on_quit_gui E w) as [->|(w' & Hw' & ->)]; [exact IH|].
      apply stop_recording_buttons. now rewrite Hw'.
    + unfold browse_dir. destruct (String.eqb _ _); exact IH.
    + exact IH.
  - exact IH.
Qed.

Lemma X11_reachable_buttons_witness : buttons_consistent (gui demo_running).
Proof. apply (X11_reachable_buttons demo_running). exact demo_running_reachable. Defined.

(** X12: pausing is undone by resuming, and resuming by pausing.  From every
    world with a child whose status line and pause button agree with the
    pause flag, when both signals are delivered and both log lines are
    written, two calls of [toggle_pause] give back the recorder and the
    files as they were, from a suspended child as well as from a running
    one. *)
Theorem X12_toggle_twice E1 E2 w p :
  proc (gui w) = Some p -> ui_consistent (gui w) ->
  (forall s, signal_exn E1 s = None) -> (forall s, signal_exn E2 s = None) ->
  log_writable E1 -> log_writable E2 ->
  let w2 := (toggle_pause E2 (toggle_pause E1 w).1).1 in
  gui w2 = gui w /\ files w2 = files w.
Proof.
  intros Hp Hc H1 H2 L1 L2.
  unfold ui_consistent in Hc. rewrite Hp in Hc. destruct Hc as (_ & Hc).
  destruct (paused (gui w)) eqn:Hpa; destruct Hc as [Hst Htx].
  - rewrite (toggle_pause_paused E1 w p Hp Hpa), H1. cbv zeta. rewrite L1. cbn [fst].
    rewrite (toggle_pause_running E2 _ p), H2; [| exact Hp | reflexivity].
    cbv zeta. rewrite L2. cbn. split; [|reflexivity].
    revert Hpa Hst Htx. destruct (gui w); cbn. intros -> -> ->. reflexivity.
  - rewrite (toggle_pause_running E1 w p Hp Hpa), H1. cbv zeta. rewrite L1. cbn [fst].
    rewrite (toggle_pause_paused E2 _ p), H2; [| exact Hp | reflexivity].
    cbv zeta. rewrite L2. cbn. split; [|reflexivity].
    revert Hpa Hst Htx. destruct (gui w); cbn. intros -> -> ->. reflexivity.
Qed.

Lemma X12_toggle_twice_witness :
  let w := (toggle_pause fair_env demo_running).1 in
  let w2 := (toggle_pause fair_env (toggle_pause fair_env w).1).1 in
  gui w2 = gui w /\ files w2 = files w.
Proof.
  apply (X12_toggle_twice fair_env fair_env (toggle_pause fair_env demo_running).1
           demo_proc).
  - vm_compute. reflexivity.
  - vm_compute. split; [discriminate|split; reflexivity].
  - reflexivity.
  - reflexivity.
  - intros m. reflexivity.
  - intros m. reflexivity.
Defined.

(** ** Further properties: [stop_recording] *)

(** The steps before the report leave the recorder and the log alone. *)
Section Frame.
Variable g : RecorderGUI.
Variable l : list string.

Abbreviation framed := (recorder_and_log g l).

Lemma frame_emit e : preserves framed (emit e).
Proof. intros w H. exact H. Qed.

Lemma frame_set_files fs : preserves framed (set_files fs).
Proof. intros w H. exact H. Qed.

Lemma frame_subprocess_run E args : preserves framed (subprocess_run E args).
Proof.
  intros w H. unfold subprocess_run.
  destruct (run_tool E args (files w)) as [fs|e]; exact H.
Qed.

Lemma frame_write_file E path content : preserves framed (write_file E path content).
Proof.
  intros w H. unfold write_file. destruct (open_exn E path); exact H.
Qed.

Lemma frame_os_remove E path : preserves framed (os_remove E path).
Proof.
  intros w H. unfold os_remove. destruct (files w !! path); [|exact H].
  destruct (remove_exn E path); exact H.
Qed.

Lemma frame_shlex_split cmd (k : list string -> M unit) :
  (forall args, preserves framed (k args)) -> preserves framed (bind (shlex_split cmd) k).
Proof.
  intros Hk. apply preserves_bind; [|exact Hk].
  unfold shlex_split. destruct (Py.shlex_split cmd);
    [apply preserves_ret|apply preserves_raise].
Qed.

Lemma frame_make_final E g' out final : preserves framed (make_final E g' out final).
Proof.
  unfold make_final. apply frame_shlex_split. intros args.
  apply preserves_bind; [apply frame_subprocess_run|intros _].
  apply preserves_bind; [apply frame_write_file|intros _].
  apply frame_shlex_split. intros args'. apply frame_subprocess_run.
Qed.

Lemma frame_removals E out :
  preserves framed (os_remove E splash_file ;; os_remove E concat_list ;; os_remove E out).
Proof.
  repeat (apply preserves_bind; [apply frame_os_remove|intros _]).
  apply frame_os_remove.
Qed.
End Frame.

Lemma make_final_frame E g' out final w :
  gui (make_final E g' out final w).1 = gui w /\
  log (make_final E g' out final w).1 = log w.
Proof. now apply (frame_make_final (gui w) (log w)). Qed.

(** [cleanup] changes the output path when the removals succeeded, and
    nothing of the recorder when one raised. *)
Lemma cleanup_frame E out final w :
  log (cleanup E out final w).1 = log w /\
  gui (cleanup E out final w).1 =
    match (cleanup E out final w).2 with
    | Ok _ => set_output_file (Some final) (gui w)
    | Raise _ => gui w
    end.
Proof.
  unfold cleanup, bind.
  pose proof (frame_os_remove (gui w) (log w) E splash_file w (conj eq_refl eq_refl))
    as [G1 L1].
  destruct (os_remove E splash_file w) as [w1 [[]|e1]]; cbn in *; [|auto].
  pose proof (frame_os_remove (gui w) (log w) E concat_list w1 (conj G1 L1))
    as [G2 L2].
  destruct (os_remove E concat_list w1) as [w2 [[]|e2]]; cbn in *; [|auto].
  pose proof (frame_os_remove (gui w) (log w) E out w2 (conj G2 L2))
    as [G3 L3].
  destruct (os_remove E out w2) as [w3 [[]|e3]]; cbn in *; [|auto].
  rewrite L3, G3. auto.
Qed.

Lemma postprocess_eq E w :
  postprocess E w =
  match output_file (gui w) with
  | None => (w, Raise (AttributeError "'NoneType' object has no attribute 'replace'"))
  | Some out =>
      match make_final E (gui w) out (final_path out) w with
      | (w1, Raise e) => (w1, Raise e)
      | (w1, Ok _) =>
          match cleanup E out (final_path out) w1 with
          | (w2, Raise e) => (w2, Raise e)
          | (w2, Ok _) => report E (final_path out) w2
          end
      end
  end.
Proof.
  unfold postprocess, bind, get_gui, ret, raise.
  destruct (output_file (gui w)) as [out|]; reflexivity.
Qed.

(** What the postprocessing sequence makes of the recorder and the log.  It
    raises with the recorder as it was, unless what raised is the log write
    of its report. *)
Lemma postprocess_cases E w :
  match postprocess E w with
  | (w', Raise e) =>
      log w' = log w /\ (gui w' = gui w \/ exists m, log_exn E m = Some e)
  | (w', Ok _) =>
      exists out, output_file (gui w) = Some out /\
        if bool_decide (is_Some (files w' !! final_path out)) then
          gui w' = set_status ("Saved: " +:+ final_path out)
                     (set_output_file (Some (final_path out)) (gui w)) /\
          log w' = log w ++ ["Success: Recording saved: " +:+ final_path out]
        else
          gui w' = set_status "Error: file not saved"
                     (set_output_file (Some (final_path out)) (gui w)) /\
          log w' = log w ++ ["Failed: final video not created"]
  end.
Proof.
  rewrite postprocess_eq.
  destruct (output_file (gui w)) as [out|]; [|auto].
  destruct (make_final_frame E (gui w) out (final_path out) w) as [G1 L1].
  destruct (make_final E (gui w) out (final_path out) w) as [w1 [[]|e1]];
    cbn [fst] in G1, L1; [|auto].
  destruct (cleanup_frame E out (final_path out) w1) as [L2 G2].
  destruct (cleanup E out (final_path out) w1) as [w2 [[]|e2]];
    cbn [fst snd] in G2, L2; [|split; [|left]; congruence].
  rewrite report_eq. cbv zeta. rewrite log_event_eq. unfold log_result.
  destruct (bool_decide (is_Some (files w2 !! final_path out))) eqn:Hex;
    match goal with |- context [log_exn E ?m] =>
      destruct (log_exn E m) as [e|] eqn:Hl end;
    try (split; [cbn [log]; congruence|right; eauto]);
    exists out; (split; [reflexivity|]);
    cbn [add_log files]; rewrite Hex; cbn [add_log gui log]; split; congruence.
Qed.

(** The same for the whole [try] block. *)
Lemma stop_body_cases E p w :
  match stop_body E p w with
  | (w', Raise e) =>
      log w' = log w /\ (gui w' = gui w \/ exists m, log_exn E m = Some e)
  | (w', Ok _) =>
      exists out, output_file (gui w) = Some out /\
        if bool_decide (is_Some (files w' !! final_path out)) then
          gui w' = set_status ("Saved: " +:+ final_path out)
                     (set_output_file (Some (final_path out)) (gui w)) /\
          log w' = log w ++ ["Success: Recording saved: " +:+ final_path out]
        else
          gui w' = set_status "Error: file not saved"
                     (set_output_file (Some (final_path out)) (gui w)) /\
          log w' = log w ++ ["Failed: final video not created"]
  end.
Proof.
  rewrite stop_body_eq. cbv zeta.
  destruct (request_result E p); [|auto].
  destruct (wait_result E); [|auto].
  apply (postprocess_cases E (add_events (wait_events E) (add_events (request_events E p) w))).
Qed.

(** How [stop_recording] ends, by the outcome of its [try] block. *)
Lemma stop_recording_outcome E w p :
  proc (gui w) = Some p ->
  let w' := (stop_recording E w).1 in
  match stop_body E p (stop_begin w).1 with
  | (w1, Raise e) =>
      let m := "Failed during stop: " +:+ str_of_exn e in
      gui w' = stopped (gui w1) /\
      (gui w' = stopped (set_status "Stopping..." (gui w)) \/
       exists m', log_exn E m' = Some e) /\
      log w' = match log_exn E m with None => log w ++ [m] | Some _ => log w end /\
      events w' = events w1 ++ [EPrint ("❌ Stop error: " +:+ str_of_exn e)] /\
      (stop_recording E w).2 = log_result E m
  | (w1, Ok _) =>
      (stop_recording E w).2 = Ok tt /\
      exists out, output_file (gui w) = Some out /\
        events w' = events w1 /\
        if bool_decide (is_Some (files w1 !! final_path out)) then
          gui w' = stopped (set_status ("Saved: " +:+ final_path out)
                              (set_output_file (Some (final_path out)) (gui w))) /\
          log w' = log w ++ ["Success: Recording saved: " +:+ final_path out]
        else
          gui w' = stopped (set_status "Error: file not saved"
                              (set_output_file (Some (final_path out)) (gui w))) /\
          log w' = log w ++ ["Failed: final video not created"]
  end.
Proof.
  intros Hp w'. unfold w'. rewrite (stop_recording_eq E w p Hp).
  cbn [fst snd with_gui gui log events]. unfold try_except.
  pose proof (stop_body_cases E p (stop_begin w).1) as Hc.
  destruct (stop_body E p (stop_begin w).1) as [w1 [[]|e]].
  - split; [reflexivity|].
    destruct Hc as (out & Ho & Hc). exists out. split; [exact Ho|].
    split; [reflexivity|]. cbn [fst].
    destruct (bool_decide (is_Some (files w1 !! final_path out)));
      destruct Hc as [-> ->]; split; reflexivity.
  - destruct Hc as [Hl Hg]. cbn [Exception fst snd]. cbv zeta.
    rewrite stop_handler_gui, stop_handler_log, stop_handler_events, Hl.
    split; [reflexivity|].
    split; [destruct Hg as [Hg|Hg]; [left; rewrite Hg; reflexivity|right; exact Hg]|].
    split; [reflexivity|].
    split; [reflexivity|]. rewrite stop_handler_eq. reflexivity.
Qed.

(** X13: the log line of a stop.  A [stop_recording] with a child that
    returns has written exactly one log line: "Success: Recording saved:
    ...", "Failed: final video not created" or "Failed during stop: ...".
    One that raises (the log write of its [except] block failed) has written
    none. *)
Theorem X13_stop_logs_once E w p :
  proc (gui w) = Some p ->
  match (stop_recording E w).2 with
  | Ok _ =>
      exists line,
        log (stop_recording E w).1 = log w ++ [line] /\
        ((exists f, line = "Success: Recording saved: " +:+ f) \/
         line = "Failed: final video not created" \/
         (exists e, line = "Failed during stop: " +:+ str_of_exn e))
  | Raise _ => log (stop_recording E w).1 = log w
  end.
Proof.
  intros Hp. pose proof (stop_recording_outcome E w p Hp) as H. cbv zeta in H.
  destruct (stop_body E p (stop_begin w).1) as [w1 [[]|e]].
  - destruct H as (-> & out & _ & _ & H).
    destruct (bool_decide _); destruct H as [_ ->]; eauto 6.
  - destruct H as (_ & _ & Hl & _ & ->). unfold log_result.
    destruct (log_exn E _); rewrite Hl; eauto 6.
Qed.

Lemma X13_stop_logs_once_witness :
  match (stop_recording fair_env demo_running).2 with
  | Ok _ =>
      exists line,
        log (stop_recording fair_env demo_running).1 = log demo_running ++ [line] /\
        ((exists f, line = "Success: Recording saved: " +:+ f) \/
         line = "Failed: final video not created" \/
         (exists e, line = "Failed during stop: " +:+ str_of_exn e))
  | Raise _ => log (stop_recording fair_env demo_running).1 = log demo_running
  end.
Proof.
  apply (X13_stop_logs_once fair_env demo_running demo_proc). vm_compute. reflexivity.
Defined.



Lemma stop_body_ok_gui E p w w' :
  stop_body E p w = (w', Ok tt) ->
  exists w2, gui w2 = gui w /\ postprocess E w2 = (w', Ok tt).
Proof.
  rewrite stop_body_eq. cbv zeta.
  destruct (request_result E p); [|discriminate].
  destruct (wait_result E); [|discriminate].
  intros H. eexists. split; [|exact H]. reflexivity.
Qed.

(** X15: a stop that succeeds.  When the [try] block ends without an
    exception, the splash clip, the manifest and the raw recording are gone,
    the output path is the final path, and the report follows the final
    file: when it exists the status line reads "Saved: <final path>" and the
    log line is "Success: Recording saved: <final path>"; when it does not
    (the concat run left no file there) the status line reads
    "Error: file not saved" and the log line is
    "Failed: final video not created". *)
Theorem X15_stop_success E w p out :
  proc (gui w) = Some p -> output_file (gui w) = Some out ->
  (stop_body E p (stop_begin w).1).2 = Ok tt ->
  let w' := (stop_recording E w).1 in
  let final := final_path out in
  files w' !! splash_file = None /\ files w' !! concat_list = None /\
  files w' !! out = None /\
  if bool_decide (is_Some (files w' !! final)) then
    gui w' = stopped (set_status ("Saved: " +:+ final)
                        (set_output_file (Some final) (gui w))) /\
    log w' = log w ++ ["Success: Recording saved: " +:+ final]
  else
    gui w' = stopped (set_status "Error: file not saved"
                        (set_output_file (Some final) (gui w))) /\
    log w' = log w ++ ["Failed: final video not created"].
Proof.
  intros Hp Ho Hok w' final.
  pose proof (stop_recording_outcome E w p Hp) as H. cbv zeta in H.
  pose proof (stop_recording_files E w p Hp) as Hf.
  destruct (stop_body E p (stop_begin w).1) as [w1 [[]|e']] eqn:Hb; [|discriminate].
  cbn [fst] in Hf. destruct H as (_ & out' & Ho' & _ & H).
  assert (out' = out) by congruence. subst out'.
  apply stop_body_ok_gui in Hb as (w2 & Hg2 & Hpost).
  apply postprocess_ok in Hpost as (out' & Ho2 & _ & H1 & H2 & H3 & _).
  assert (Hout : out' = out).
  { rewrite Hg2 in Ho2. cbn in Ho2. congruence. }
  subst out'. unfold w'. rewrite Hf. repeat split; try assumption.
Qed.

Lemma X15_stop_success_witness :
  let w' := (stop_recording fair_env demo_running).1 in
  let final := final_path demo_raw in
  files w' !! splash_file = None /\ files w' !! concat_list = None /\
  files w' !! demo_raw = None /\
  if bool_decide (is_Some (files w' !! final)) then
    gui w' = stopped (set_status ("Saved: " +:+ final)
                        (set_output_file (Some final) (gui demo_running))) /\
    log w' = log demo_running ++ ["Success: Recording saved: " +:+ final]
  else
    gui w' = stopped (set_status "Error: file not saved"
                        (set_output_file (Some final) (gui demo_running))) /\
    log w' = log demo_running ++ ["Failed: final video not created"].
Proof.
  apply (X15_stop_success fair_env demo_running demo_proc demo_raw);
    vm_compute; reflexivity.
Defined.

(** X16: the final path of an ordinary raw path.  When [.mp4] occurs in the
    raw path only as its extension, the final path is the raw path with
    [_final] before the extension. *)
Theorem X16_final_path_suffix stem :
  no_occurrence_inside ".mp4" stem ".mp4" = true ->
  final_path (stem +:+ ".mp4") = stem +:+ "_final.mp4".
Proof. apply final_path_suffix. Qed.

Lemma X16_final_path_suffix_witness :
  final_path ("/home/u/My Videos/recording_2024-01-01_00-00-00" +:+ ".mp4") =
  "/home/u/My Videos/recording_2024-01-01_00-00-00" +:+ "_final.mp4".
Proof.
  apply (X16_final_path_suffix "/home/u/My Videos/recording_2024-01-01_00-00-00").
  vm_compute. reflexivity.
Defined.

(** Replacing never shortens: what [replace_from] returns, with the
    characters it was told to skip, is at least as long as its input. *)
Lemma replace_from_length s : forall k,
  String.length s <=
  String.length (Py.replace_from ".mp4" "_final.mp4" k s) + Nat.min k (String.length s).
Proof.
  induction s as [|c s IH]; intros k; [cbn; lia|].
  destruct k as [|k].
  - cbn [Py.replace_from].
    destruct (String.prefix ".mp4" (String c s)).
    + specialize (IH (String.length ".mp4" - 1)).
      cbn -[Nat.min] in IH |- *. lia.
    + specialize (IH 0). cbn -[Nat.min] in IH |- *. lia.
  - specialize (IH k). cbn -[Nat.min] in IH |- *. lia.
Qed.

(** Where [.mp4] occurs, replacing makes the string longer. *)
Lemma replace_from_longer s :
  occurs ".mp4" s = true ->
  String.length s < String.length (Py.replace_from ".mp4" "_final.mp4" 0 s).
Proof.
  induction s as [|c s IH]; intros H; [discriminate|].
  cbn [occurs] in H. cbn [Py.replace_from].
  destruct (String.prefix ".mp4" (String c s)).
  - pose proof (replace_from_length s (String.length ".mp4" - 1)) as Hl.
    cbn -[Nat.min] in Hl |- *. lia.
  - cbn [orb] in H. specialize (IH H). cbn -[Nat.min]. lia.
Qed.

Lemma occurs_suffix stem : occurs ".mp4" (stem +:+ ".mp4") = true.
Proof.
  induction stem as [|c stem IH]; [reflexivity|].
  change (String c stem +:+ ".mp4") with (String c (stem +:+ ".mp4")).
  cbn [occurs]. rewrite IH. apply orb_true_r.
Qed.

(** X17: the final path is never the raw path.  For every directory entry
    and time stamp, the final path computed for the output path of
    [start_recording] is longer than that path, so that removing the raw
    recording does not remove the final file. *)
Theorem X17_final_path_differs dir ts :
  let out := Py.path_join dir ("recording_" +:+ ts +:+ ".mp4") in
  String.length out < String.length (final_path out) /\ final_path out <> out.
Proof.
  intros out.
  assert (Hocc : occurs ".mp4" out = true).
  { unfold out, Py.path_join.
    change (String.prefix "/" ("recording_" +:+ ts +:+ ".mp4")) with false.
    cbv iota.
    destruct (_ || _).
    - replace (dir +:+ "recording_" +:+ ts +:+ ".mp4")
        with ((dir +:+ "recording_" +:+ ts) +:+ ".mp4")
        by now rewrite !append_assoc.
      apply occurs_suffix.
    - replace (dir +:+ "/" +:+ "recording_" +:+ ts +:+ ".mp4")
        with ((dir +:+ "/" +:+ "recording_" +:+ ts) +:+ ".mp4")
        by now rewrite !append_assoc.
      apply occurs_suffix. }
  assert (Hlt : String.length out < String.length (final_path out))
    by apply (replace_from_longer out Hocc).
  split; [exact Hlt|]. intros Heq. rewrite Heq in Hlt. lia.
Qed.

(** The steps of the postprocessing sequence, when they succeed. *)
Lemma shlex_split_bind_ok cmd (k : list string -> M unit) w w' :
  bind (shlex_split cmd) k w = (w', Ok tt) ->
  exists args, Py.shlex_split cmd = Some args /\ k args w = (w', Ok tt).
Proof.
  unfold bind, shlex_split. destruct (Py.shlex_split cmd) as [args|]; [|discriminate].
  eauto.
Qed.

Lemma subprocess_run_ok E args w w' :
  subprocess_run E args w = (w', Ok tt) ->
  exists fs, w' = {| gui := gui w; files := fs; log := log w;
                     events := events w ++ [ERun args true] |}.
Proof.
  unfold subprocess_run. destruct (run_tool E args (files w)) as [fs|e]; [|discriminate].
  intros H. inversion H. eauto.
Qed.

Lemma write_file_ok E path content w w' :
  write_file E path content w = (w', Ok tt) ->
  w' = {| gui := gui w; files := <[path := content]> (files w); log := log w;
          events := events w ++ [EWrite path content] |}.
Proof.
  unfold write_file. destruct (open_exn E path); [discriminate|].
  intros H. inversion H. reflexivity.
Qed.

Lemma os_remove_ok_world E path w w' :
  os_remove E path w = (w', Ok tt) ->
  w' = {| gui := gui w; files := delete path (files w); log := log w;
          events := events w ++ [ERemove path true] |}.
Proof.
  unfold os_remove. destruct (files w !! path); [|discriminate].
  destruct (remove_exn E path); [discriminate|].
  intros H. inversion H. reflexivity.
Qed.

Lemma make_final_ok E g out final w w' :
  make_final E g out final w = (w', Ok tt) ->
  exists a1 a2,
    Py.shlex_split (cmd_splash (size_str g) (fstr (title_text g))) = Some a1 /\
    Py.shlex_split (cmd_concat final) = Some a2 /\
    events w' = events w ++
      [ERun a1 true; EWrite concat_list (concat_manifest out); ERun a2 true].
Proof.
  unfold make_final. intros H.
  apply shlex_split_bind_ok in H as (a1 & Ha1 & H).
  apply bind_ok in H as (w1 & [] & H1 & H).
  apply bind_ok in H as (w2 & [] & H2 & H).
  apply shlex_split_bind_ok in H as (a2 & Ha2 & H).
  apply subprocess_run_ok in H1 as (fs1 & ->).
  apply write_file_ok in H2 as ->.
  apply subprocess_run_ok in H as (fs2 & ->).
  exists a1, a2. cbn. now rewrite <- !app_assoc.
Qed.

Lemma cleanup_ok_events E out final w w' :
  cleanup E out final w = (w', Ok tt) ->
  events w' = events w ++
    [ERemove splash_file true; ERemove concat_list true; ERemove out true].
Proof.
  unfold cleanup. intros H.
  apply bind_ok in H as (w1 & [] & H1 & H).
  apply bind_ok in H as (w2 & [] & H2 & H).
  apply bind_ok in H as (w3 & [] & H3 & H).
  apply os_remove_ok_world in H1 as ->.
  apply os_remove_ok_world in H2 as ->.
  apply os_remove_ok_world in H3 as ->.
  inversion H. cbn. now rewrite <- !app_assoc.
Qed.

Lemma postprocess_ok_events E w w' :
  postprocess E w = (w', Ok tt) ->
  exists out a1 a2,
    output_file (gui w) = Some out /\
    Py.shlex_split (cmd_splash (size_str (gui w)) (fstr (title_text (gui w)))) = Some a1 /\
    Py.shlex_split (cmd_concat (final_path out)) = Some a2 /\
    events w' = events w ++
      [ERun a1 true; EWrite concat_list (concat_manifest out); ERun a2 true;
       ERemove splash_file true; ERemove concat_list true; ERemove out true;
       EPrint (if bool_decide (is_Some (files w' !! final_path out))
               then "✅ Recording saved: " +:+ final_path out
               else "❌ Error: final video not created")].
Proof.
  rewrite postprocess_eq.
  destruct (output_file (gui w)) as [out|]; [|discriminate].
  destruct (make_final E (gui w) out (final_path out) w) as [w1 [[]|e1]] eqn:Hm;
    [|discriminate].
  destruct (cleanup E out (final_path out) w1) as [w2 [[]|e2]] eqn:Hc;
    [|discriminate].
  apply make_final_ok in Hm as (a1 & a2 & Ha1 & Ha2 & Hev1).
  apply cleanup_ok_events in Hc as Hev2.
  rewrite report_eq. cbv zeta. rewrite log_event_eq.
  intros H. exists out, a1, a2.
  split; [reflexivity|]. split; [exact Ha1|]. split; [exact Ha2|].
  unfold log_result in H.
  destruct (log_exn E _); [discriminate|].
  destruct (bool_decide (is_Some (files w2 !! final_path out))) eqn:Hex;
    inversion H; subst w'; cbn [add_log files events]; rewrite Hex, Hev2, Hev1;
    now rewrite <- !app_assoc.
Qed.

(** X18: the trace of a stop that succeeds.  When the [try] block ends
    without an exception, what [stop_recording] did outside is, in this
    order: the request to stop, the wait (with the kill and the second wait
    when the first timed out), the splash run, the manifest written with the
    splash clip on its first line and the raw recording on its second, the
    concat run into the final path, the removal of the splash clip, of the
    manifest and of the raw recording, and the printed report. *)
Theorem X18_stop_success_trace E w p out :
  proc (gui w) = Some p -> output_file (gui w) = Some out ->
  (stop_body E p (stop_begin w).1).2 = Ok tt ->
  let w' := (stop_recording E w).1 in
  exists a1 a2,
    Py.shlex_split (cmd_splash (size_str (gui w)) (fstr (title_text (gui w)))) = Some a1 /\
    Py.shlex_split (cmd_concat (final_path out)) = Some a2 /\
    new_events w w' =
      request_events E p ++ wait_events E ++
      [ERun a1 true;
       EWrite concat_list
         ("file '" +:+ splash_file +:+ "'" +:+ NL +:+ "file '" +:+ out +:+ "'" +:+ NL);
       ERun a2 true;
       ERemove splash_file true; ERemove concat_list true; ERemove out true;
       EPrint (if bool_decide (is_Some (files w' !! final_path out))
               then "✅ Recording saved: " +:+ final_path out
               else "❌ Error: final video not created")].
Proof.
  intros Hp Ho Hok w'.
  pose proof (stop_recording_outcome E w p Hp) as H. cbv zeta in H.
  pose proof (stop_recording_files E w p Hp) as Hf.
  destruct (stop_body E p (stop_begin w).1) as [w1 [[]|e']] eqn:Hb; [|discriminate].
  cbn [fst] in Hf. destruct H as (_ & _ & _ & Hev & _).
  rewrite stop_body_eq in Hb. cbv zeta in Hb.
  destruct (request_result E p); [|discriminate].
  destruct (wait_result E); [|discriminate].
  apply postprocess_ok_events in Hb as (out' & a1 & a2 & Ho' & Ha1 & Ha2 & Hev').
  cbn [add_events gui events] in Ho', Ha1, Ha2, Hev'.
  assert (out' = out) by (cbn in Ho'; congruence). subst out'.
  exists a1, a2. split; [exact Ha1|]. split; [exact Ha2|].
  unfold new_events, w'. rewrite Hf, Hev, Hev'. cbn [stop_begin].
  rewrite <- !app_assoc. now rewrite drop_app_length.
Qed.

Lemma X18_stop_success_trace_witness :
  let w' := (stop_recording fair_env demo_running).1 in
  exists a1 a2,
    Py.shlex_split
      (cmd_splash (size_str (gui demo_running)) (fstr (title_text (gui demo_running))))
    = Some a1 /\
    Py.shlex_split (cmd_concat (final_path demo_raw)) = Some a2 /\
    new_events demo_running w' =
      request_events fair_env demo_proc ++ wait_events fair_env ++
      [ERun a1 true;
       EWrite concat_list
         ("file '" +:+ splash_file +:+ "'" +:+ NL +:+ "file '" +:+ demo_raw +:+ "'" +:+ NL);
       ERun a2 true;
       ERemove splash_file true; ERemove concat_list true; ERemove demo_raw true;
       EPrint (if bool_decide (is_Some (files w' !! final_path demo_raw))
               then "✅ Recording saved: " +:+ final_path demo_raw
               else "❌ Error: final video not created")].
Proof.
  apply (X18_stop_success_trace fair_env demo_running demo_proc demo_raw);
    vm_compute; reflexivity.
Defined.

(** ** Further properties: what [stop_recording] leaves alone *)

Lemma os_remove_raise E path w w' e :
  os_remove E path w = (w', Raise e) -> files w' = files w.
Proof.
  unfold os_remove. destruct (files w !! path).
  - destruct (remove_exn E path); [|discriminate]. intros H. now inversion H.
  - intros H. now inversion H.
Qed.

Section RawKept.
Variable E : env.
Variable g : RecorderGUI.
Variable out : string.
Variable v : option string.
Hypothesis Hsplash : out <> splash_file.
Hypothesis Hlist : out <> concat_list.
Hypothesis Htool :
  forall args fs fs', stop_tool_args g out args ->
    run_tool E args fs = Ok fs' -> fs' !! out = fs !! out.
Hypothesis Hlog : log_writable E.

Abbreviation raw_is := (fun w : world => files w !! out = v).

Lemma raw_subprocess_run args :
  stop_tool_args g out args -> preserves raw_is (subprocess_run E args).
Proof.
  intros Ha w H. unfold subprocess_run.
  destruct (run_tool E args (files w)) as [fs|e] eqn:Hr; cbn; [|exact H].
  now rewrite (Htool _ _ _ Ha Hr).
Qed.

Lemma raw_write_manifest content : preserves raw_is (write_file E concat_list content).
Proof.
  intros w H. unfold write_file. destruct (open_exn E concat_list); [exact H|].
  cbn. rewrite lookup_insert_ne; [exact H|congruence].
Qed.

Lemma raw_shlex_split cmd (k : list string -> M unit) :
  (forall args, Py.shlex_split cmd = Some args -> preserves raw_is (k args)) ->
  preserves raw_is (bind (shlex_split cmd) k).
Proof.
  intros Hk w H. unfold bind, shlex_split.
  destruct (Py.shlex_split cmd) as [args|]; [|exact H].
  now apply (Hk args).
Qed.

Lemma raw_make_final : preserves raw_is (make_final E g out (final_path out)).
Proof.
  unfold make_final. apply raw_shlex_split. intros args Ha.
  apply preserves_bind; [apply raw_subprocess_run; now left|intros _].
  apply preserves_bind; [apply raw_write_manifest|intros _].
  apply raw_shlex_split. intros args' Ha'. apply raw_subprocess_run. now right.
Qed.

(** A [cleanup] that raises has not removed the raw recording. *)
Lemma raw_cleanup_raise final w w' e :
  cleanup E out final w = (w', Raise e) -> files w' !! out = files w !! out.
Proof.
  unfold cleanup, bind.
  destruct (os_remove E splash_file w) as [w1 [[]|e1]] eqn:H1.
  2:{ intros H. inversion H; subst. now rewrite (os_remove_raise _ _ _ _ _ H1). }
  apply os_remove_ok_world in H1 as ->.
  destruct (os_remove E concat_list _) as [w2 [[]|e2]] eqn:H2.
  2:{ intros H. inversion H; subst. rewrite (os_remove_raise _ _ _ _ _ H2). cbn.
      now rewrite lookup_delete_ne by congruence. }
  apply os_remove_ok_world in H2 as ->.
  destruct (os_remove E out _) as [w3 [[]|e3]] eqn:H3; [discriminate|].
  intros H. inversion H; subst. rewrite (os_remove_raise _ _ _ _ _ H3). cbn.
  now rewrite !lookup_delete_ne by congruence.
Qed.

(** A postprocessing sequence that raises has not removed it either. *)
Lemma raw_postprocess_raise w w' e :
  gui w = g -> output_file g = Some out -> files w !! out = v ->
  postprocess E w = (w', Raise e) -> files w' !! out = v.
Proof.
  intros Hg Ho Hv. rewrite postprocess_eq, Hg, Ho.
  pose proof (raw_make_final w Hv) as Hm.
  destruct (make_final E g out (final_path out) w) as [w1 [[]|e1]]; cbn [fst] in Hm.
  - destruct (cleanup E out (final_path out) w1) as [w2 [[]|e2]] eqn:Hc.
    + rewrite report_eq. cbv zeta. rewrite log_event_eq. unfold log_result.
      rewrite Hlog. discriminate.
    + intros H. inversion H; subst.
      now rewrite (raw_cleanup_raise _ _ _ _ Hc).
  - intros H. inversion H; subst. exact Hm.
Qed.
End RawKept.



Section Emits.
Variable P : event -> bool.

Lemma emits_ret {A} (a : A) : emits P (ret a).
Proof. intros w. exists []. split; [now rewrite app_nil_r|reflexivity]. Qed.

Lemma emits_raise {A} e : emits P (@raise A e).
Proof. intros w. exists []. split; [now rewrite app_nil_r|reflexivity]. Qed.

Lemma emits_update f : emits P (update f).
Proof. intros w. exists []. split; [cbn; now rewrite app_nil_r|reflexivity]. Qed.

Lemma emits_log_event E m : emits P (log_event E m).
Proof.
  intros w. exists []. split; [|reflexivity]. rewrite log_event_eq, app_nil_r.
  cbn [fst]. destruct (log_exn E m); reflexivity.
Qed.

Lemma emits_set_files fs : emits P (set_files fs).
Proof. intros w. exists []. split; [cbn; now rewrite app_nil_r|reflexivity]. Qed.

Lemma emits_emit e : P e = true -> emits P (emit e).
Proof. intros H w. exists [e]. split; [reflexivity|]. cbn. now rewrite H. Qed.

Lemma emits_bind {A B} (m : M A) (k : A -> M B) :
  emits P m -> (forall a, emits P (k a)) -> emits P (bind m k).
Proof.
  intros Hm Hk w. unfold bind. destruct (Hm w) as (l1 & H1 & F1).
  destruct (m w) as [w1 [a|e]]; cbn [fst] in H1; [|eauto].
  destruct (Hk a w1) as (l2 & H2 & F2). exists (l1 ++ l2).
  rewrite H2, H1, app_assoc, forallb_app, F1, F2. auto.
Qed.
End Emits.

Lemma emits_try_except {A} P (m : M A) c h :
  emits P m -> (forall e, emits P (h e)) -> emits P (try_except m c h).
Proof.
  intros Hm Hh w. unfold try_except. destruct (Hm w) as (l1 & H1 & F1).
  destruct (m w) as [w1 [a|e]]; cbn [fst] in H1; [eauto|].
  destruct (c e); [|eauto].
  destruct (Hh e w1) as (l2 & H2 & F2). exists (l1 ++ l2).
  rewrite H2, H1, app_assoc, forallb_app, F1, F2. auto.
Qed.

Lemma emits_try_finally {A} P (m : M A) f :
  emits P m -> emits P f -> emits P (try_finally m f).
Proof.
  intros Hm Hf w. unfold try_finally. destruct (Hm w) as (l1 & H1 & F1).
  destruct (m w) as [w1 r]; cbn [fst] in H1.
  destruct (Hf w1) as (l2 & H2 & F2).
  destruct (f w1) as [w2 [[]|e]]; cbn [fst] in H2 |- *; exists (l1 ++ l2);
    rewrite H2, H1, app_assoc, forallb_app, F1, F2; auto.
Qed.

Lemma emits_get_gui P (k : RecorderGUI -> M unit) :
  (forall g, emits P (k g)) -> emits P (bind get_gui k).
Proof. intros Hk w. apply (Hk (gui w) w). Qed.

Lemma emits_shlex_split P cmd (k : list string -> M unit) :
  (forall args, emits P (k args)) -> emits P (bind (shlex_split cmd) k).
Proof.
  intros Hk. apply emits_bind; [|exact Hk].
  unfold shlex_split. destruct (Py.shlex_split cmd); [apply emits_ret|apply emits_raise].
Qed.

Lemma emits_subprocess_run E args : emits stop_event (subprocess_run E args).
Proof.
  intros w. unfold subprocess_run.
  destruct (run_tool E args (files w)) as [fs|e]; eexists [_]; split; reflexivity.
Qed.

Lemma emits_write_file E path content : emits stop_event (write_file E path content).
Proof.
  intros w. unfold write_file. destruct (open_exn E path).
  - apply emits_raise.
  - eexists [_]. split; reflexivity.
Qed.

Lemma emits_os_remove E path : emits stop_event (os_remove E path).
Proof.
  intros w. unfold os_remove. destruct (files w !! path).
  - destruct (remove_exn E path); eexists [_]; split; reflexivity.
  - eexists [_]. split; reflexivity.
Qed.

Lemma emits_postprocess E : emits stop_event (postprocess E).
Proof.
  unfold postprocess. apply emits_get_gui. intros g.
  apply emits_bind.
  { destruct (output_file g); [apply emits_ret|apply emits_raise]. }
  intros out. apply emits_bind.
  { unfold make_final. apply emits_shlex_split. intros a1.
    apply emits_bind; [apply emits_subprocess_run|intros _].
    apply emits_bind; [apply emits_write_file|intros _].
    apply emits_shlex_split. intros a2. apply emits_subprocess_run. }
  intros _. apply emits_bind.
  { unfold cleanup. repeat (apply emits_bind; [apply emits_os_remove|intros _]).
    apply emits_update. }
  intros _. unfold report, os_path_exists, print.
  apply emits_bind; [intros w; exists []; split; [now rewrite app_nil_r|reflexivity]|].
  intros []; (apply emits_bind; [apply emits_update|intros _]);
    (apply emits_bind; [now apply emits_emit|intros _]); apply emits_log_event.
Qed.

Lemma emits_stop_body E p : emits stop_event (stop_body E p).
Proof.
  unfold stop_body. apply emits_bind.
  { intros w. rewrite graceful_stop_eq. eexists. split; [reflexivity|].
    unfold request_events.
    destruct (is_wayland E), (p_stdin p), (stdin_exn E), (signal_exn E SIGINT);
      reflexivity. }
  intros _. apply emits_bind; [|intros _; apply emits_postprocess].
  intros w. rewrite wait_child_eq. eexists. split; [reflexivity|].
  unfold wait_events. destruct (exits_within E 20), (signal_exn E SIGKILL); reflexivity.
Qed.

Lemma emits_stop_recording E : emits stop_event (stop_recording E).
Proof.
  unfold stop_recording. apply emits_get_gui. intros g.
  destruct (proc g) as [p|]; [|apply emits_ret].
  apply emits_bind.
  { unfold stop_begin. apply emits_bind; [apply emits_update|intros _; apply emits_update]. }
  intros _. apply emits_try_finally.
  - apply emits_try_except; [apply emits_stop_body|].
    intros e. unfold stop_handler, print.
    apply emits_bind; [now apply emits_emit|intros _; apply emits_log_event].
  - unfold stop_finally.
    repeat (apply emits_bind; [apply emits_update|intros _]). apply emits_update.
Qed.

(** X21: what [stop_recording] does to the outside.  Every event it adds to
    the trace is a request to stop (the interrupt signal or the quit command),
    a wait or the kill, a step of the postprocessing sequence, or a printed
    line: it shows no dialog, starts no child with [Popen], and sends
    neither SIGSTOP nor SIGCONT, so that a suspended child is asked to stop
    without being resumed. *)
Theorem X21_stop_events E w :
  forallb stop_event (new_events w (stop_recording E w).1) = true /\
  (forall b, ESignal SIGCONT b ∉ new_events w (stop_recording E w).1) /\
  (forall b, ESignal SIGSTOP b ∉ new_events w (stop_recording E w).1) /\
  (forall k t m, EDialog k t m ∉ new_events w (stop_recording E w).1) /\
  (forall args, ESpawn args ∉ new_events w (stop_recording E w).1).
Proof.
  destruct (emits_stop_recording E w) as (evs & Hev & Hall).
  unfold new_events. rewrite Hev, drop_app_length.
  split; [exact Hall|].
  rewrite forallb_forall in Hall.
  repeat split; intros; intros Hin; apply list_elem_of_In in Hin;
    specialize (Hall _ Hin); discriminate.
Qed.

(** ** Further properties: [on_quit] *)

Lemma on_quit_child E w p :
  proc (gui w) = Some p ->
  let ask := EDialog AskYesNo "Quit" "Recording is running. Stop and quit?" in
  on_quit E w =
  if askyesno E then
    match stop_recording E (add_events [ask] w) with
    | (w1, Ok _) => (add_events [EDestroy] w1, Ok tt)
    | (w1, Raise e) => (w1, Raise e)
    end
  else (add_events [ask] w, Ok tt).
Proof.
  intros Hp. unfold on_quit, bind at 1, get_gui. rewrite Hp.
  unfold bind, messagebox, emit, add_events. cbv beta iota.
  destruct (askyesno E); reflexivity.
Qed.

(** X19: quitting.  Without a child [on_quit] destroys the window and does
    nothing else.  With a child it asks first.  On "no" nothing else happens
    and the recording goes on.  On "yes" it runs [stop_recording], so that
    the handle and the pause flag are cleared; when [stop_recording] returns
    the window is destroyed next (the source schedules the destruction 100 ms
    later), and when it raises [on_quit] raises the same and the window is
    not destroyed. *)
Theorem X19_on_quit E w :
  let ask := EDialog AskYesNo "Quit" "Recording is running. Stop and quit?" in
  match proc (gui w) with
  | None => on_quit E w = (add_events [EDestroy] w, Ok tt)
  | Some _ =>
      if askyesno E then
        let s := stop_recording E (add_events [ask] w) in
        proc (gui (on_quit E w).1) = None /\
        paused (gui (on_quit E w).1) = false /\
        match s.2 with
        | Ok _ => on_quit E w = (add_events [EDestroy] s.1, Ok tt)
        | Raise e =>
            on_quit E w = (s.1, Raise e) /\
            EDestroy ∉ new_events w (on_quit E w).1
        end
      else on_quit E w = (add_events [ask] w, Ok tt)
  end.
Proof.
  intros ask. destruct (proc (gui w)) as [p|] eqn:Hp.
  - rewrite (on_quit_child E w p Hp). cbv zeta. fold ask.
    destruct (askyesno E); [|reflexivity].
    pose proof (stop_recording_eq E (add_events [ask] w) p Hp) as Hs.
    destruct (emits_stop_recording E (add_events [ask] w)) as (evs & Hev & Hall).
    destruct (stop_recording E (add_events [ask] w)) as [w1 [[]|e]];
      inversion Hs as [[Hw1 Hr]]; cbn [fst snd] in *.
    + repeat split.
    + repeat split. unfold new_events. rewrite Hw1 in Hev. rewrite Hev.
      cbn [add_events events].
      rewrite <- app_assoc, drop_app_length.
      intros Hin. apply elem_of_cons in Hin as [Hin|Hin]; [discriminate|].
      rewrite forallb_forall in Hall. apply list_elem_of_In in Hin.
      specialize (Hall _ Hin). discriminate.
  - unfold on_quit, bind, get_gui. rewrite Hp. reflexivity.
Qed.

Lemma X19_on_quit_witness :
  let E := with_log_exn (with_signal_exn (with_session fair_env (Some "wayland"))
                           not_permitted) disk_full in
  let ask := EDialog AskYesNo "Quit" "Recording is running. Stop and quit?" in
  proc (gui (on_quit E demo_running).1) = None /\
  paused (gui (on_quit E demo_running).1) = false /\
  (on_quit E demo_running).2 = Raise (OSError "[Errno 28] No space left on device") /\
  EDestroy ∉ new_events demo_running (on_quit E demo_running).1.
Proof.
  intros E ask.
  pose proof (X19_on_quit E demo_running) as H.
  change (proc (gui demo_running)) with (Some demo_proc) in H.
  change (askyesno E) with true in H. cbv zeta iota in H.
  destruct H as (H1 & H2 & H3).
  change ((stop_recording E (add_events [ask] demo_running)).2)
    with (@Raise unit (OSError "[Errno 28] No space left on device")) in H3.
  cbv iota in H3. destruct H3 as [H3 H4].
  split; [exact H1|]. split; [exact H2|]. split; [now rewrite H3|exact H4].
Defined.
